(** * microapp: execution context and application lifecycle

    A shallow embedding of the Go packages [context] (the execution context
    that carries correlation id, token, unit of work, action and logger) and
    [microapp] (database bootstrap, server start and stop, logging
    middleware), with the properties their description states.

    Conventions.
    - A Go [string] is a byte string: Rocq's [string].
    - A [map[string]string] handed to a [for k, v := range] loop is given as
      the list of its entries in the order that loop visits them; every
      result below holds for each order.
    - A pointer to a heap-allocated struct is an index into a store.
    - Calls that leave the program (the log sink, the SQL driver, the HTTP
      server, the clock, the random source) are recorded as events; what
      they return is an input of the model. *)

From Stdlib Require Import ZArith NArith List Lia.
From Stdlib.Strings Require Import Ascii String Byte.
From stdpp Require Import base option list strings gmap fin_maps.

Local Open Scope Z_scope.

(* ===================================================================== *)
(** * Package [strings] of the Go standard library (the parts used)      *)
(* ===================================================================== *)

Module Strings.

(** [asciiSpace]: the six ASCII bytes that [strings.TrimSpace] removes. *)
Definition asciiSpace (c : ascii) : bool :=
  let n := N_of_ascii c in
  ((n =? 9) || (n =? 10) || (n =? 11) || (n =? 12) || (n =? 13) || (n =? 32))%N.

(** White space of two bytes in UTF-8: U+0085 and U+00A0. *)
Definition space2 (c0 c1 : ascii) : bool :=
  let a := N_of_ascii c0 in
  let b := N_of_ascii c1 in
  ((a =? 194) && ((b =? 133) || (b =? 160)))%N.

(** White space of three bytes in UTF-8: U+1680, U+2000..U+200A, U+2028,
    U+2029, U+202F, U+205F and U+3000 ([unicode.IsSpace] beyond Latin-1). *)
Definition space3 (c0 c1 c2 : ascii) : bool :=
  let a := N_of_ascii c0 in
  let b := N_of_ascii c1 in
  let c := N_of_ascii c2 in
  (((a =? 225) && (b =? 154) && (c =? 128))
   || ((a =? 226) && (b =? 128)
       && (((128 <=? c) && (c <=? 138)) || (c =? 168) || (c =? 169) || (c =? 175)))
   || ((a =? 226) && (b =? 129) && (c =? 159))
   || ((a =? 227) && (b =? 128) && (c =? 128)))%N.

(** [TrimLeftFunc s unicode.IsSpace]: drop leading white-space runes. A byte
    sequence that is not the encoding of a white-space rune stops the scan. *)
Fixpoint trimLeft (s : string) : string :=
  match s with
  | String c0 r0 =>
      if asciiSpace c0 then trimLeft r0
      else match r0 with
           | String c1 r1 =>
               if space2 c0 c1 then trimLeft r1
               else match r1 with
                    | String c2 r2 => if space3 c0 c1 c2 then trimLeft r2 else s
                    | EmptyString => s
                    end
           | EmptyString => s
           end
  | EmptyString => s
  end.

(** The same scan from the end, on the reversed bytes: the last rune is read
    backwards, so the encodings appear with their bytes in reverse order. *)
Fixpoint trimLeftRev (s : string) : string :=
  match s with
  | String c0 r0 =>
      if asciiSpace c0 then trimLeftRev r0
      else match r0 with
           | String c1 r1 =>
               if space2 c1 c0 then trimLeftRev r1
               else match r1 with
                    | String c2 r2 => if space3 c2 c1 c0 then trimLeftRev r2 else s
                    | EmptyString => s
                    end
           | EmptyString => s
           end
  | EmptyString => s
  end.

Definition trimRight (s : string) : string :=
  String.rev (trimLeftRev (String.rev s)).

(** [strings.TrimSpace]. *)
Definition TrimSpace (s : string) : string := trimRight (trimLeft s).

(** [strings.HasPrefix s prefix]. *)
Fixpoint HasPrefix (s prefix : string) : bool :=
  match prefix, s with
  | EmptyString, _ => true
  | String p prefix', String c s' =>
      if Ascii.eqb p c then HasPrefix s' prefix' else false
  | String _ _, EmptyString => false
  end.

(** [strings.Contains s substr]: [substr] occurs somewhere in [s]. *)
Fixpoint Contains (s substr : string) : bool :=
  HasPrefix s substr ||
  match s with
  | String _ s' => Contains s' substr
  | EmptyString => false
  end.

End Strings.

(* ===================================================================== *)
(** * Package [uuid] (satori/go.uuid): values and their text             *)
(* ===================================================================== *)

Module Uuid.

(** [type UUID [16]byte]: the sixteen bytes, in order. *)
Definition UUID : Type := list byte.

Definition hextable : string := "0123456789abcdef".

Definition hexdigit (n : N) : ascii :=
  match String.get (N.to_nat n) hextable with
  | Some c => c
  | None => "0"%char
  end.

(** [hex.Encode]: two lower-case digits for each byte. *)
Fixpoint hexEncode (bs : list byte) : string :=
  match bs with
  | [] => ""
  | b :: r =>
      String (hexdigit (Byte.to_N b / 16))
        (String (hexdigit (Byte.to_N b mod 16)) (hexEncode r))
  end.

(** [UUID.String]: xxxxxxxx-xxxx-xxxx-xxxx-xxxxxxxxxxxx. *)
Definition String (u : UUID) : string :=
  hexEncode (take 4 u) +:+ "-" +:+
  hexEncode (take 2 (drop 4 u)) +:+ "-" +:+
  hexEncode (take 2 (drop 6 u)) +:+ "-" +:+
  hexEncode (take 2 (drop 8 u)) +:+ "-" +:+
  hexEncode (drop 10 u).

(** [uuid.Nil]. *)
Definition Nil : UUID := replicate 16 x00%byte.

End Uuid.

(* ===================================================================== *)
(** * Package [zerolog]: loggers, contexts, events and lines             *)
(* ===================================================================== *)

(** The log sink is an external collaborator. A logger is the sequence of
    fields fixed on it, in the order they were added; [With] copies that
    sequence before anything is appended, so a logger built from another
    never shares storage with it. A line is what a logger hands to the sink:
    whether the sink drops a line below its configured level is the sink's
    business and is not modelled.

    [FTimestamp] is not a field with a place of its own: it stands for the
    hook that [Timestamp()] installs on a logger, at the place in the
    sequence where it was installed. The hook writes the time when a line is
    sent, after the fields of the logger and of the event; [sent] gives the
    fields of a line in the order they are written. *)
Module Zerolog.

Inductive Level : Type :=
| DebugLevel | InfoLevel | WarnLevel | ErrorLevel | FatalLevel.

Inductive Field : Type :=
| FStr (key val : string)
| FInt (key : string) (val : Z)
| FDur (key : string) (val : Z)
| FErr (text : string)
| FTimestamp.

Definition Logger : Type := list Field.
Definition Context : Type := list Field.

Record Event : Type := mkEvent { ev_level : Level; ev_fields : list Field }.

Record Line : Type := mkLine
  { line_level : Level; line_fields : list Field; line_message : string }.

Definition With (l : Logger) : Context := l.
Definition Context_Str (key val : string) (c : Context) : Context := c ++ [FStr key val].
Definition Context_Timestamp (c : Context) : Context := c ++ [FTimestamp].
Definition Context_Logger (c : Context) : Logger := c.

Definition newEvent (lvl : Level) (l : Logger) : Event := mkEvent lvl l.
Definition Debug := newEvent DebugLevel.
Definition Info := newEvent InfoLevel.
Definition Warn := newEvent WarnLevel.
Definition Error := newEvent ErrorLevel.
Definition Fatal := newEvent FatalLevel.

Definition Event_add (f : Field) (e : Event) : Event :=
  mkEvent (ev_level e) (ev_fields e ++ [f]).
Definition Event_Str (key val : string) : Event -> Event := Event_add (FStr key val).
Definition Event_Int (key : string) (val : Z) : Event -> Event := Event_add (FInt key val).
Definition Event_Dur (key : string) (val : Z) : Event -> Event := Event_add (FDur key val).

(** [Event.Msg]: the line handed to the sink. *)
Definition Event_Msg (msg : string) (e : Event) : Line :=
  mkLine (ev_level e) (ev_fields e) msg.

Definition isTimestamp (f : Field) : bool :=
  match f with FTimestamp => true | _ => false end.

(** The fields of a line in the order they are written: those of the logger
    and of the event, then the time of each timestamp hook. *)
Definition sent (fields : list Field) : list Field :=
  filter (fun f => negb (isTimestamp f)) fields ++ filter (fun f => isTimestamp f) fields.

(** The value of the last field [key] of a line, as a later field with the
    same key shadows an earlier one for a reader of the line. *)
Fixpoint lookupStr (key : string) (fs : list Field) : option string :=
  match fs with
  | [] => None
  | f :: r =>
      match lookupStr key r with
      | Some v => Some v
      | None => match f with
                | FStr k v => if String.eqb k key then Some v else None
                | _ => None
                end
      end
  end.

End Zerolog.

(* ===================================================================== *)
(** * Error values                                                       *)
(* ===================================================================== *)

(** A non-nil value of the interface type [error], by the dynamic type that
    the type switch of [LogError] and the comparison in [Start] tell apart,
    with what those read from it. [errorString] stands for every other
    dynamic type. A nil [error] is [None : option error]. *)
Module Errors.

Inductive error : Type :=
| ValidationError (text : string)
| HTTPResourceNotFound (text ErrorKey ResourceName ResourceValue : string)
| APIClientError (text errorCode stackTrace apiURL : string)
    (httpResponseBody : option string) (httpStatusCode : option Z)
| UnexpectedError (text errorCode stackTrace : string)
| ErrServerClosed
| errorString (text : string).

(** [err.Error()]. *)
Definition Error (e : error) : string :=
  match e with
  | ValidationError t => t
  | HTTPResourceNotFound t _ _ _ => t
  | APIClientError t _ _ _ _ _ => t
  | UnexpectedError t _ _ => t
  | ErrServerClosed => "http: Server closed"
  | errorString t => t
  end.

(** [Event.Err(err)]: the error's text under the error key; nothing for nil. *)
Definition Event_Err (err : option error) (e : Zerolog.Event) : Zerolog.Event :=
  match err with
  | Some x => Zerolog.Event_add (Zerolog.FErr (Error x)) e
  | None => e
  end.

End Errors.

(* ===================================================================== *)
(** * Facts about [strings] and [uuid]                                   *)
(* ===================================================================== *)

Module StringsFacts.

Import Strings.

(** An ASCII byte that is not white space. *)
Definition plainb (c : ascii) : bool :=
  (N_of_ascii c <? 128)%N && negb (asciiSpace c).

Definition head (s : string) : option ascii :=
  match s with
  | String c _ => Some c
  | EmptyString => None
  end.

Lemma plainb_spaces c :
  plainb c = true ->
  asciiSpace c = false /\
  (forall d, space2 c d = false) /\ (forall d, space2 d c = false) /\
  (forall d e, space3 c d e = false) /\ (forall d e, space3 e d c = false).
Proof.
  unfold plainb, space2, space3. intros [Hlt Hsp%negb_true_iff]%andb_true_iff.
  apply N.ltb_lt in Hlt.
  split; [exact Hsp|].
  repeat split; intros;
    repeat match goal with
           | |- context [N.eqb ?a ?b] => destruct (N.eqb_spec a b)
           | |- context [N.leb ?a ?b] => destruct (N.leb_spec a b)
           end; simpl; try reflexivity; lia.
Qed.

Lemma trimLeft_plain c r : plainb c = true -> trimLeft (String c r) = String c r.
Proof.
  intros (H1 & H2 & _ & H3 & _)%plainb_spaces. simpl. rewrite H1.
  destruct r as [|c1 [|c2 r2]]; [reflexivity | |]; rewrite H2; [reflexivity|].
  rewrite H3. reflexivity.
Qed.

Lemma trimLeftRev_plain c r : plainb c = true -> trimLeftRev (String c r) = String c r.
Proof.
  intros (H1 & _ & H2 & _ & H3)%plainb_spaces. simpl. rewrite H1.
  destruct r as [|c1 [|c2 r2]]; [reflexivity | |]; rewrite H2; [reflexivity|].
  rewrite H3. reflexivity.
Qed.

Lemma rev_app_rev_app s : forall a b,
  String.rev_app (String.rev_app s a) b = String.rev_app a (s +:+ b).
Proof.
  induction s as [|x s IH]; intros a b; simpl; [reflexivity|].
  rewrite IH. reflexivity.
Qed.

Lemma append_empty_r s : s +:+ "" = s.
Proof.
  induction s as [|x s IH]; [reflexivity|].
  change (String x s +:+ "") with (String x (s +:+ "")). rewrite IH. reflexivity.
Qed.

Lemma rev_involutive s : String.rev (String.rev s) = s.
Proof. unfold String.rev. rewrite rev_app_rev_app. simpl. apply append_empty_r. Qed.

(** A string that starts and ends with an ASCII byte that is not white
    space is left as it is. *)
Lemma TrimSpace_plain_ends s c c' :
  head s = Some c -> plainb c = true ->
  head (String.rev s) = Some c' -> plainb c' = true ->
  TrimSpace s = s.
Proof.
  intros Hh Hc Hl Hc'. unfold TrimSpace, trimRight.
  destruct s as [|x r]; [discriminate|]. injection Hh as ->.
  rewrite trimLeft_plain by assumption.
  destruct (String.rev (String c r)) as [|y r'] eqn:E; [discriminate|].
  injection Hl as ->. rewrite trimLeftRev_plain by assumption.
  rewrite <- E. apply rev_involutive.
Qed.

Lemma TrimSpace_empty : TrimSpace "" = "".
Proof. reflexivity. Qed.

End StringsFacts.

Module UuidFacts.

Import Uuid StringsFacts.

Lemma hexdigit_plain n : plainb (hexdigit n) = true.
Proof.
  unfold hexdigit. generalize (N.to_nat n) as k. intros k.
  do 16 (destruct k as [|k]; [reflexivity|]). reflexivity.
Qed.




Ltac sixteen u H :=
  do 16 (destruct u as [|? u]; [discriminate H|]);
  destruct u; [|discriminate H].

Lemma String_nonempty u : String u <> "".
Proof.
  unfold String. destruct (hexEncode (take 4 u)); simpl; discriminate.
Qed.

Lemma String_length u : length u = 16%nat -> String.length (String u) = 36%nat.
Proof. intros H. sixteen u H. reflexivity. Qed.


(** The text of a UUID has no white space at either end. *)
Lemma TrimSpace_String u : length u = 16%nat -> Strings.TrimSpace (String u) = String u.
Proof.
  intros H. sixteen u H.
  eapply TrimSpace_plain_ends; [reflexivity | apply hexdigit_plain | reflexivity | apply hexdigit_plain].
Qed.

End UuidFacts.

(* ===================================================================== *)
(** * Package [context]: the execution context                           *)
(* ===================================================================== *)

Module MicroappContext.

Import Zerolog Errors.

Notation "x |> f" := (f x) (at level 45, left associativity, only parsing).

(** [security.JwtToken], with the fields this package and its callers read. *)
Record JwtToken : Type := mkJwtToken
  { Admin : bool;
    TenantID : Uuid.UUID;
    UserID : Uuid.UUID;
    TenantName : string;
    UserName : string;
    DisplayName : string;
    Raw : string }.

(** A [*repository.UnitOfWork] that is not nil: the address of the unit of
    work, which this package stores and returns without looking inside. *)
Definition UnitOfWorkRef : Type := nat.

(** The struct behind an [ExecutionContext]. The token is held by pointer;
    no function of this package writes through it, so the struct is given
    the token's value, [None] for nil. The logger is held by value. *)
Record executionContextImpl : Type := mkExecutionContext
  { CorrelationID : string;
    UOW : option UnitOfWorkRef;
    Token : option JwtToken;
    Action : string;
    logger : Logger }.

(** ** The store *)

(** An [ExecutionContext] is a [*executionContextImpl]: an index into the
    list of the structs allocated so far. The sink collects the lines
    written, oldest first. *)
Definition ptr : Type := nat.

Record World : Type := mkWorld
  { heap : list executionContextImpl;
    sink : list Line }.

(** A computation on the store; [None] is a nil or dangling dereference. *)
Definition M (A : Type) : Type := World -> option (A * World).

#[global] Instance M_ret : MRet M := fun A a w => Some (a, w).

#[global] Instance M_bind : MBind M := fun A B f m w =>
  match m w with
  | Some (a, w') => f a w'
  | None => None
  end.

(** A nil dereference. *)
Definition fault {A} : M A := fun _ => None.

Definition load (p : ptr) : M executionContextImpl :=
  fun w => match heap w !! p with
           | Some c => Some (c, w)
           | None => None
           end.

Definition store (p : ptr) (c : executionContextImpl) : M unit :=
  fun w => match heap w !! p with
           | Some _ => Some (tt, mkWorld (<[p := c]> (heap w)) (sink w))
           | None => None
           end.

(** [&executionContextImpl{...}]: a new struct at a new address. *)
Definition new (c : executionContextImpl) : M ptr :=
  fun w => Some (length (heap w), mkWorld (heap w ++ [c]) (sink w)).

Definition write (l : Line) : M unit :=
  fun w => Some (tt, mkWorld (heap w) (sink w ++ [l])).

(** [for k, v := range fields { loggerWith = loggerWith.Str(k, v) }]. *)
Definition rangeStr (fields : list (string * string)) (loggerWith : Context) : Context :=
  foldl (fun lw kv => lw |> Context_Str kv.1 kv.2) loggerWith fields.

(** ** Construction *)

(** [NewExecutionContext]; [u] is what [uuid.NewV4()] returns if it is called. *)
Definition NewExecutionContext (token : option JwtToken) (correlationID action : string)
    (logger : Logger) (u : Uuid.UUID) : M ptr :=
  let cid := correlationID in
  let cid := if (String.length (Strings.TrimSpace cid) =? 0)%nat then Uuid.String u else cid in
  let executionCtxLogger :=
    match token with
    | Some token =>
        With logger
        |> Context_Str "tenantId" (Uuid.String (TenantID token))
        |> Context_Str "userId" (Uuid.String (UserID token))
        |> Context_Str "username" (UserName token)
        |> Context_Str "tenantName" (TenantName token)
        |> Context_Str "userDisplayName" (DisplayName token)
        |> Context_Str "action" action
        |> Context_Str "correlationId" cid
        |> Context_Logger
    | None =>
        With logger
        |> Context_Str "action" action
        |> Context_Str "correlationId" cid
        |> Context_Logger
    end in
  new {| CorrelationID := cid; Token := token; Action := action;
         logger := executionCtxLogger; UOW := None |}.

(** ** In-place operations and getters *)

Definition AddLoggerStrFields (context : ptr) (strFields : list (string * string)) : M unit :=
  c ← load context;
  let loggerWith := With (logger c) |> rangeStr strFields in
  store context
    (mkExecutionContext (CorrelationID c) (UOW c) (Token c) (Action c)
       (Context_Logger loggerWith)).

Definition GetActionName (context : ptr) : M string :=
  c ← load context;
  mret (Action c).

Definition GetCorrelationID (context : ptr) : M string :=
  c ← load context;
  mret (CorrelationID c).

Definition GetDefaultLogger (context : ptr) : M Logger :=
  c ← load context;
  mret (logger c).

Definition GetToken (context : ptr) : M (option JwtToken) :=
  c ← load context;
  mret (Token c).

Definition GetUOW (context : ptr) : M (option UnitOfWorkRef) :=
  c ← load context;
  mret (UOW c).

Definition SetUOW (context : ptr) (uow : option UnitOfWorkRef) : M unit :=
  c ← load context;
  store context
    (mkExecutionContext (CorrelationID c) uow (Token c) (Action c) (logger c)).

(** ** Derivation *)

Definition SubContextWithAddlFieldsAndUoW (context : ptr) (uow : option UnitOfWorkRef)
    (additionalFields : list (string * string)) : M ptr :=
  c ← load context;
  let loggerWith := With (logger c) |> rangeStr additionalFields in
  new (mkExecutionContext (CorrelationID c) uow (Token c) (Action c)
         (Context_Logger loggerWith)).

Definition SubContext (context : ptr) (additionalFields : list (string * string)) : M ptr :=
  c ← load context;
  let loggerWith := With (logger c) |> rangeStr additionalFields in
  new (mkExecutionContext (CorrelationID c) (UOW c) (Token c) (Action c)
         (Context_Logger loggerWith)).

Definition SubContextWithToken (context : ptr) (token : option JwtToken)
    (additionalFields : list (string * string)) : M ptr :=
  c ← load context;
  let loggerWith := With (logger c) |> rangeStr additionalFields in
  new (mkExecutionContext (CorrelationID c) (UOW c) token (Action c)
         (Context_Logger loggerWith)).

Definition SubContextWithTokenAndUoW (context : ptr) (token : option JwtToken)
    (uow : option UnitOfWorkRef) (additionalFields : list (string * string)) : M ptr :=
  c ← load context;
  let loggerWith := With (logger c) |> rangeStr additionalFields in
  new (mkExecutionContext (CorrelationID c) uow token (Action c)
         (Context_Logger loggerWith)).

Definition SubContextWithUoW (context : ptr) (uow : option UnitOfWorkRef)
    (additionalFields : list (string * string)) : M ptr :=
  c ← load context;
  let loggerWith := With (logger c) |> rangeStr additionalFields in
  new (mkExecutionContext (CorrelationID c) uow (Token c) (Action c)
         (Context_Logger loggerWith)).

(** ** Calls as data, to speak of every sequence of them *)

Inductive Derivation : Type :=
| DSubContext (additionalFields : list (string * string))
| DSubContextWithToken (token : option JwtToken) (additionalFields : list (string * string))
| DSubContextWithTokenAndUoW (token : option JwtToken) (uow : option UnitOfWorkRef)
    (additionalFields : list (string * string))
| DSubContextWithUoW (uow : option UnitOfWorkRef) (additionalFields : list (string * string)).

Definition derive (d : Derivation) (context : ptr) : M ptr :=
  match d with
  | DSubContext f => SubContext context f
  | DSubContextWithToken t f => SubContextWithToken context t f
  | DSubContextWithTokenAndUoW t u f => SubContextWithTokenAndUoW context t u f
  | DSubContextWithUoW u f => SubContextWithUoW context u f
  end.

Inductive Mutation : Type :=
| MAddLoggerStrFields (strFields : list (string * string))
| MSetUOW (uow : option UnitOfWorkRef).

Definition mutate (m : Mutation) (context : ptr) : M unit :=
  match m with
  | MAddLoggerStrFields f => AddLoggerStrFields context f
  | MSetUOW u => SetUOW context u
  end.

(** A step of a program that grows a context tree: derive a child from the
    [i]-th node made so far, or change that node in place. *)
Inductive Step : Type :=
| StepDerive (i : nat) (d : Derivation)
| StepMutate (i : nat) (m : Mutation).

(** Run the steps; [nodes] are the contexts of the tree, the root first. *)
Fixpoint grow (steps : list Step) (nodes : list ptr) : M (list ptr) :=
  match steps with
  | [] => mret nodes
  | StepDerive i d :: rest =>
      match nodes !! i with
      | Some parent => child ← derive d parent; grow rest (nodes ++ [child])
      | None => fault
      end
  | StepMutate i m :: rest =>
      match nodes !! i with
      | Some node => _ ← mutate m node; grow rest nodes
      | None => fault
      end
  end.

(** Every step names a node that exists when the step runs, [n] nodes
    existing at the start. *)
Fixpoint well_indexed (steps : list Step) (n : nat) : bool :=
  match steps with
  | [] => true
  | StepDerive i _ :: rest => (i <? n)%nat && well_indexed rest (S n)
  | StepMutate i _ :: rest => (i <? n)%nat && well_indexed rest n
  end.

(** ** Logging *)

Section Logging.

(** Constants of package [log], which is not among the sources: every
    result holds whatever their values are. *)
Variables EventTypeValidationErr EventCodeInvalidData MessageInvalidInputData : string.
Variables EventTypeUnexpectedErr EventCodeUnknown MessageParseError : string.
Variables EventTypeSuccess EventCodeActionComplete : string.

(** [Logger(eventType, eventCode)]: a new logger; the context is only read. *)
Definition Logger (context : ptr) (eventType eventCode : string) : M Zerolog.Logger :=
  c ← load context;
  mret (With (logger c)
        |> Context_Str "eventType" eventType
        |> Context_Str "eventCode" eventCode
        |> Context_Logger).

Definition LogError (context : ptr) (err : option error) (errorMessage : string) : M unit :=
  match err with
  | Some (ValidationError _) =>
      l ← Logger context EventTypeValidationErr EventCodeInvalidData;
      write (Info l |> Event_Err err |> Event_Msg MessageInvalidInputData)
  | Some (HTTPResourceNotFound _ ErrorKey ResourceName ResourceValue) =>
      l ← Logger context EventTypeUnexpectedErr ErrorKey;
      write (Debug l |> Event_Err err
             |> Event_Str "resourceName" ResourceName
             |> Event_Str "resourceValue" ResourceValue
             |> Event_Msg errorMessage)
  | Some (APIClientError _ errorCode stackTrace apiURL responseBody responseCode) =>
      l ← Logger context EventTypeUnexpectedErr errorCode;
      let tmpLoggerEvent :=
        Zerolog.Error l |> Event_Err err
        |> Event_Str "stack" stackTrace
        |> Event_Str "apiURL" apiURL in
      let tmpLoggerEvent :=
        match responseBody with
        | Some body => tmpLoggerEvent |> Event_Str "responseBody" body
        | None => tmpLoggerEvent
        end in
      let tmpLoggerEvent :=
        match responseCode with
        | Some code => tmpLoggerEvent |> Event_Int "responseStatusCode" code
        | None => tmpLoggerEvent
        end in
      write (tmpLoggerEvent |> Event_Msg errorMessage)
  | Some (UnexpectedError _ errorCode stackTrace) =>
      l ← Logger context EventTypeUnexpectedErr errorCode;
      write (Zerolog.Error l |> Event_Err err
             |> Event_Str "stack" stackTrace
             |> Event_Msg errorMessage)
  | _ =>
      l ← Logger context EventTypeUnexpectedErr EventCodeUnknown;
      write (Zerolog.Error l |> Event_Err err |> Event_Msg errorMessage)
  end.

Definition LogJSONParseError (context : ptr) (err : option error) : M unit :=
  LogError context err MessageParseError.

Definition LoggerEventActionCompletion (context : ptr) : M Event :=
  c ← load context;
  mret (Info (logger c)
        |> Event_Str "eventType" EventTypeSuccess
        |> Event_Str "eventCode" EventCodeActionComplete).

(** C4. For a validation error, [LogError] hands the sink exactly one line:
    level info, the context's fields followed by the validation event type,
    the invalid-data event code and the error's text, and the fixed
    invalid-input message. The store is not changed, and the line is the
    same whatever [errorMessage] is. *)
Theorem LogError_validation_fixed_line context text errorMessage w c :
  heap w !! context = Some c ->
  LogError context (Some (ValidationError text)) errorMessage w =
    Some (tt, mkWorld (heap w)
                (sink w ++
                 [mkLine InfoLevel
                    (logger c ++ [FStr "eventType" EventTypeValidationErr;
                                  FStr "eventCode" EventCodeInvalidData;
                                  FErr text])
                    MessageInvalidInputData]))
  /\ forall otherMessage,
       LogError context (Some (ValidationError text)) otherMessage w =
       LogError context (Some (ValidationError text)) errorMessage w.
Proof.
  intros Hc. split; [|reflexivity].
  unfold LogError, Logger, mbind, M_bind, load, write, mret, M_ret. rewrite Hc.
  unfold Event_Msg, Event_Err, Event_add, Info, newEvent, Context_Logger, Context_Str, With.
  simpl. rewrite <- !app_assoc. reflexivity.
Qed.

End Logging.

(** ** What one call does to the store *)

Lemma bind_Some {A B} (m : M A) (f : A -> M B) w b w' :
  (m ≫= f) w = Some (b, w') ->
  exists a w1, m w = Some (a, w1) /\ f a w1 = Some (b, w').
Proof.
  unfold mbind, M_bind. destruct (m w) as [[a w1]|] eqn:E; [|discriminate].
  intros H. exists a, w1. split; [reflexivity|exact H].
Qed.

Lemma load_Some p w c w' :
  load p w = Some (c, w') -> heap w !! p = Some c /\ w' = w.
Proof.
  unfold load. destruct (heap w !! p) eqn:E; [|discriminate].
  intros H. injection H as -> ->. split; reflexivity.
Qed.

(** A derivation reads its source and appends one struct to the store. *)
Lemma derive_inv d parent w child w' :
  derive d parent w = Some (child, w') ->
  exists pc cc,
    heap w !! parent = Some pc /\ child = length (heap w) /\
    heap w' = heap w ++ [cc] /\ sink w' = sink w /\
    CorrelationID cc = CorrelationID pc /\ Action cc = Action pc.
Proof.
  intros H.
  destruct d; simpl in H;
    apply bind_Some in H as (pc & w1 & Hl & Hn);
    apply load_Some in Hl as [Hl ->];
    unfold new in Hn; injection Hn as <- <-;
    eexists pc, _; repeat split; try eassumption; reflexivity.
Qed.

Lemma derive_total d parent w pc :
  heap w !! parent = Some pc -> exists child w', derive d parent w = Some (child, w').
Proof.
  intros H.
  destruct d; simpl;
    unfold SubContext, SubContextWithToken, SubContextWithTokenAndUoW, SubContextWithUoW,
      mbind, M_bind, load, new; rewrite H; eauto.
Qed.

(** An in-place operation replaces the struct at its receiver, keeping the
    correlation id, the action and the token, and touches nothing else. *)
Lemma mutate_inv m node w w' :
  mutate m node w = Some (tt, w') ->
  exists c c',
    heap w !! node = Some c /\ heap w' = <[node := c']> (heap w) /\
    sink w' = sink w /\
    CorrelationID c' = CorrelationID c /\ Action c' = Action c /\ Token c' = Token c.
Proof.
  intros H.
  destruct m; simpl in H;
    apply bind_Some in H as (c & w1 & Hl & Hs);
    apply load_Some in Hl as [Hl ->];
    unfold store in Hs; rewrite Hl in Hs; injection Hs as <-;
    eexists c, _; repeat split; try eassumption; reflexivity.
Qed.

Lemma mutate_total m node w c :
  heap w !! node = Some c -> exists w', mutate m node w = Some (tt, w').
Proof.
  intros H.
  destruct m; simpl;
    unfold AddLoggerStrFields, SetUOW, mbind, M_bind, load, store; rewrite H; simpl;
    rewrite H; eauto.
Qed.

(** ** The correlation id and the action along a tree *)

(** Every node of [nodes] is allocated and carries [cid] and [act]. *)
Definition same_request (cid act : string) (w : World) (nodes : list ptr) : Prop :=
  forall n, n ∈ nodes ->
    exists c, heap w !! n = Some c /\ CorrelationID c = cid /\ Action c = act.

Lemma same_request_derive cid act d parent w child w' nodes :
  same_request cid act w nodes -> parent ∈ nodes ->
  derive d parent w = Some (child, w') ->
  same_request cid act w' (nodes ++ [child]).
Proof.
  intros Hinv Hin Hd.
  apply derive_inv in Hd as (pc & cc & Hp & -> & Hh & _ & Hc & Ha).
  destruct (Hinv _ Hin) as (pc' & Hp' & Hcid & Hact).
  rewrite Hp in Hp'. injection Hp' as <-.
  intros n [Hn | Hn%list_elem_of_singleton]%elem_of_app.
  - destruct (Hinv _ Hn) as (c & Hl & ? & ?).
    exists c. rewrite Hh, lookup_app_l by (eapply lookup_lt_Some; eassumption).
    auto.
  - subst n. exists cc. rewrite Hh, list_lookup_middle by reflexivity.
    repeat split; congruence.
Qed.

Lemma same_request_mutate cid act m node w w' nodes :
  same_request cid act w nodes ->
  mutate m node w = Some (tt, w') ->
  same_request cid act w' nodes.
Proof.
  intros Hinv Hm.
  apply mutate_inv in Hm as (c & c' & Hl & Hh & _ & Hc & Ha & _).
  intros n Hn. destruct (Hinv _ Hn) as (x & Hx & Hcid & Hact).
  rewrite Hh. destruct (decide (node = n)) as [-> | Hne].
  - exists c'. rewrite list_lookup_insert_eq by (eapply lookup_lt_Some; eassumption).
    rewrite Hl in Hx. injection Hx as <-. repeat split; congruence.
  - exists x. rewrite list_lookup_insert_ne by assumption. auto.
Qed.

Lemma grow_same_request cid act steps :
  forall nodes w nodes' w',
    same_request cid act w nodes ->
    grow steps nodes w = Some (nodes', w') ->
    same_request cid act w' nodes' /\ nodes `prefix_of` nodes'.
Proof.
  induction steps as [| [i d | i m] rest IH]; intros nodes w nodes' w' Hinv Hg; simpl in Hg.
  - injection Hg as <- <-. split; [assumption | reflexivity].
  - destruct (nodes !! i) as [parent|] eqn:Hi; [|discriminate].
    apply bind_Some in Hg as (child & w1 & Hd & Hg).
    eapply IH in Hg as [Hs Hp].
    + split; [exact Hs|]. etrans; [|exact Hp]. by apply prefix_app_r.
    + eapply same_request_derive; [exact Hinv | | exact Hd].
      eapply list_elem_of_lookup_2; eassumption.
  - destruct (nodes !! i) as [node|] eqn:Hi; [|discriminate].
    apply bind_Some in Hg as ([] & w1 & Hm & Hg).
    eapply IH in Hg; [exact Hg|].
    eapply same_request_mutate; eassumption.
Qed.

Lemma NewExecutionContext_allocates token correlationID action lg u w :
  exists c,
    NewExecutionContext token correlationID action lg u w
    = Some (length (heap w), mkWorld (heap w ++ [c]) (sink w)).
Proof. eexists. reflexivity. Qed.

(** A program whose steps name existing nodes runs to its end. *)
Lemma grow_total cid act steps :
  forall nodes w,
    same_request cid act w nodes ->
    well_indexed steps (length nodes) = true ->
    exists nodes' w', grow steps nodes w = Some (nodes', w').
Proof.
  induction steps as [| [i d | i m] rest IH]; intros nodes w Hinv Hwf; simpl in *.
  - eauto.
  - apply andb_true_iff in Hwf as [Hi%Nat.ltb_lt Hwf].
    destruct (lookup_lt_is_Some_2 nodes i Hi) as [parent Hp]. rewrite Hp.
    assert (Hin : parent ∈ nodes) by (eapply list_elem_of_lookup_2; eassumption).
    destruct (Hinv _ Hin) as (pc & Hpc & _).
    destruct (derive_total d parent w pc Hpc) as (child & w1 & Hd).
    unfold mbind, M_bind. rewrite Hd.
    apply IH.
    + eapply same_request_derive; eassumption.
    + rewrite length_app. simpl. rewrite Nat.add_1_r. exact Hwf.
  - apply andb_true_iff in Hwf as [Hi%Nat.ltb_lt Hwf].
    destruct (lookup_lt_is_Some_2 nodes i Hi) as [node Hn]. rewrite Hn.
    assert (Hin : node ∈ nodes) by (eapply list_elem_of_lookup_2; eassumption).
    destruct (Hinv _ Hin) as (c & Hc & _).
    destruct (mutate_total m node w c Hc) as (w1 & Hm).
    unfold mbind, M_bind. rewrite Hm.
    apply IH; [|exact Hwf].
    eapply same_request_mutate; eassumption.
Qed.

(** C1. Each of the four derivations returns a context whose correlation id
    and action are those of the context it was derived from; hence in a tree
    grown from a root made by [NewExecutionContext], by any sequence of
    derivations (and in-place operations), every node carries the root's
    correlation id and action; and every such sequence whose steps name
    existing nodes runs to its end. *)
Theorem derivations_share_correlation_id_and_action :
  (forall d parent w child w',
      derive d parent w = Some (child, w') ->
      exists pc cc,
        heap w !! parent = Some pc /\ heap w' !! child = Some cc /\
        CorrelationID cc = CorrelationID pc /\ Action cc = Action pc)
  /\
  (forall token correlationID action lg u w0 root w1 steps nodes w,
      NewExecutionContext token correlationID action lg u w0 = Some (root, w1) ->
      grow steps [root] w1 = Some (nodes, w) ->
      exists r,
        heap w1 !! root = Some r /\ Action r = action /\ root ∈ nodes /\
        forall n, n ∈ nodes ->
          exists c, heap w !! n = Some c /\
                    CorrelationID c = CorrelationID r /\ Action c = Action r)
  /\
  (forall token correlationID action lg u w0 steps,
      well_indexed steps 1 = true ->
      exists root w1 nodes w,
        NewExecutionContext token correlationID action lg u w0 = Some (root, w1) /\
        grow steps [root] w1 = Some (nodes, w)).
Proof.
  split; [|split].
  - intros d parent w child w' Hd.
    apply derive_inv in Hd as (pc & cc & Hp & -> & Hh & _ & Hc & Ha).
    exists pc, cc. rewrite Hh, list_lookup_middle by reflexivity. auto.
  - intros token correlationID action lg u w0 root w1 steps nodes w Hnew Hg.
    unfold NewExecutionContext, new in Hnew.
    injection Hnew as <- <-. simpl in *.
    eexists. split; [apply list_lookup_middle; reflexivity|].
    split; [reflexivity|].
    eapply grow_same_request in Hg as [Hs Hp].
    + split; [|exact Hs].
      destruct Hp as [k ->]. apply elem_of_app. left. apply list_elem_of_singleton. reflexivity.
    + intros n ->%list_elem_of_singleton.
      eexists. split; [apply list_lookup_middle; reflexivity|]. split; reflexivity.
  - intros token correlationID action lg u w0 steps Hwf.
    destruct (NewExecutionContext_allocates token correlationID action lg u w0)
      as (c & Hnew).
    destruct (grow_total (CorrelationID c) (Action c) steps [length (heap w0)]
                (mkWorld (heap w0 ++ [c]) (sink w0)))
      as (nodes & w & Hg); [| exact Hwf |].
    + intros n ->%list_elem_of_singleton.
      exists c. split; [apply list_lookup_middle; reflexivity|]. split; reflexivity.
    + eauto 10.
Qed.

(** A root without token, a child with one more field, a grandchild with a
    unit of work, and an in-place change of the child. *)
Definition demo_steps : list Step :=
  [ StepDerive 0 (DSubContext [("k", "v")]);
    StepDerive 1 (DSubContextWithUoW (Some 7%nat) []);
    StepMutate 1 (MSetUOW (Some 9%nat)) ].

Definition demo_root : executionContextImpl :=
  mkExecutionContext "req-1" None None "tenant.get"
    [FStr "action" "tenant.get"; FStr "correlationId" "req-1"].

Definition demo_world : World :=
  mkWorld
    [ demo_root;
      mkExecutionContext "req-1" (Some 9%nat) None "tenant.get"
        [FStr "action" "tenant.get"; FStr "correlationId" "req-1"; FStr "k" "v"];
      mkExecutionContext "req-1" (Some 7%nat) None "tenant.get"
        [FStr "action" "tenant.get"; FStr "correlationId" "req-1"; FStr "k" "v"] ]
    [].

Lemma derivations_share_correlation_id_and_action_witness :
  exists r,
    heap (mkWorld [demo_root] []) !! 0%nat = Some r /\ Action r = "tenant.get" /\
    0%nat ∈ [0; 1; 2]%nat /\
    forall n, n ∈ [0; 1; 2]%nat ->
      exists c, heap demo_world !! n = Some c /\
                CorrelationID c = CorrelationID r /\ Action c = Action r.
Proof.
  apply (proj1 (proj2 derivations_share_correlation_id_and_action)
           None "req-1" "tenant.get" [] Uuid.Nil (mkWorld [] []) 0%nat
           (mkWorld [demo_root] []) demo_steps [0; 1; 2]%nat demo_world).
  - reflexivity.
  - reflexivity.
Defined.

(** ** Derivation and the contexts that already exist *)

(** C2. A derivation succeeds on every allocated context and leaves every
    context that existed (its source and all ancestors among them) as it
    was: logger, token and unit of work read the same. An in-place operation
    on the derived child then changes the child's struct only. *)
Theorem derivation_leaves_source_and_ancestors_unchanged d parent w pc :
  heap w !! parent = Some pc ->
  exists child w',
    derive d parent w = Some (child, w') /\
    heap w !! child = None /\
    (forall q c, heap w !! q = Some c -> heap w' !! q = Some c) /\
    GetDefaultLogger parent w' = Some (logger pc, w') /\
    GetToken parent w' = Some (Token pc, w') /\
    GetUOW parent w' = Some (UOW pc, w') /\
    forall m, exists w'',
      mutate m child w' = Some (tt, w'') /\
      (forall q, q <> child -> heap w'' !! q = heap w' !! q) /\
      (forall q c, heap w !! q = Some c -> heap w'' !! q = Some c) /\
      GetDefaultLogger parent w'' = Some (logger pc, w'') /\
      GetToken parent w'' = Some (Token pc, w'') /\
      GetUOW parent w'' = Some (UOW pc, w'').
Proof.
  intros Hp.
  destruct (derive_total d parent w pc Hp) as (child & w' & Hd).
  exists child, w'. split; [exact Hd|].
  apply derive_inv in Hd as (pc' & cc & _ & -> & Hh & _ & _ & _).
  assert (Hold : forall q c, heap w !! q = Some c -> heap w' !! q = Some c).
  { intros q c Hq. rewrite Hh. rewrite lookup_app_l; [exact Hq|].
    eapply lookup_lt_Some; eassumption. }
  assert (Hget : forall w2, heap w2 !! parent = Some pc ->
            GetDefaultLogger parent w2 = Some (logger pc, w2) /\
            GetToken parent w2 = Some (Token pc, w2) /\
            GetUOW parent w2 = Some (UOW pc, w2)).
  { intros w2 H2.
    unfold GetDefaultLogger, GetToken, GetUOW, mbind, M_bind, load.
    rewrite H2. repeat split. }
  split; [apply lookup_ge_None; lia|].
  split; [exact Hold|].
  destruct (Hget w' (Hold _ _ Hp)) as (Hg1 & Hg2 & Hg3).
  repeat (split; [assumption|]).
  intros m.
  assert (Hc : heap w' !! length (heap w) = Some cc).
  { rewrite Hh. apply list_lookup_middle. reflexivity. }
  destruct (mutate_total m _ _ _ Hc) as (w'' & Hm).
  exists w''. split; [exact Hm|].
  apply mutate_inv in Hm as (c0 & c' & _ & Hh' & _).
  assert (Hother : forall q, q <> length (heap w) -> heap w'' !! q = heap w' !! q).
  { intros q Hq. rewrite Hh'. apply list_lookup_insert_ne. congruence. }
  assert (Hold' : forall q c, heap w !! q = Some c -> heap w'' !! q = Some c).
  { intros q c Hq. rewrite Hother; [apply Hold; exact Hq|].
    apply lookup_lt_Some in Hq. lia. }
  split; [exact Hother|]. split; [exact Hold'|].
  apply Hget, Hold', Hp.
Qed.

Lemma derivation_leaves_source_and_ancestors_unchanged_witness :
  exists child w',
    derive (DSubContextWithUoW (Some 7%nat) [("k", "v")]) 0%nat (mkWorld [demo_root] [])
      = Some (child, w') /\
    heap (mkWorld [demo_root] []) !! child = None /\
    (forall q c, heap (mkWorld [demo_root] []) !! q = Some c -> heap w' !! q = Some c) /\
    GetDefaultLogger 0%nat w' = Some (logger demo_root, w') /\
    GetToken 0%nat w' = Some (Token demo_root, w') /\
    GetUOW 0%nat w' = Some (UOW demo_root, w') /\
    forall m, exists w'',
      mutate m child w' = Some (tt, w'') /\
      (forall q, q <> child -> heap w'' !! q = heap w' !! q) /\
      (forall q c, heap (mkWorld [demo_root] []) !! q = Some c -> heap w'' !! q = Some c) /\
      GetDefaultLogger 0%nat w'' = Some (logger demo_root, w'') /\
      GetToken 0%nat w'' = Some (Token demo_root, w'') /\
      GetUOW 0%nat w'' = Some (UOW demo_root, w'').
Proof.
  apply (derivation_leaves_source_and_ancestors_unchanged
           (DSubContextWithUoW (Some 7%nat) [("k", "v")]) 0%nat
           (mkWorld [demo_root] []) demo_root).
  reflexivity.
Defined.

Lemma LogError_validation_fixed_line_witness :
  LogError "validation error" "invalid data" "invalid input" "unexpected" "unknown"
    0%nat (Some (ValidationError "name is required")) "caller text"
    (mkWorld [demo_root] []) =
    Some (tt, mkWorld [demo_root]
                [mkLine InfoLevel
                   [FStr "action" "tenant.get"; FStr "correlationId" "req-1";
                    FStr "eventType" "validation error"; FStr "eventCode" "invalid data";
                    FErr "name is required"]
                   "invalid input"])
  /\ forall otherMessage,
       LogError "validation error" "invalid data" "invalid input" "unexpected" "unknown"
         0%nat (Some (ValidationError "name is required")) otherMessage
         (mkWorld [demo_root] []) =
       LogError "validation error" "invalid data" "invalid input" "unexpected" "unknown"
         0%nat (Some (ValidationError "name is required")) "caller text"
         (mkWorld [demo_root] []).
Proof.
  apply (LogError_validation_fixed_line
           "validation error" "invalid data" "invalid input" "unexpected" "unknown"
           0%nat "name is required" "caller text" (mkWorld [demo_root] []) demo_root).
  reflexivity.
Defined.

(** ** The root context *)

(** The struct behind the pointer that a constructor returns. *)
Definition created (m : M ptr) (w : World) : option executionContextImpl :=
  match m w with
  | Some (p, w') => heap w' !! p
  | None => None
  end.

Lemma NewExecutionContext_created token correlationID action lg u w :
  exists c,
    created (NewExecutionContext token correlationID action lg u) w = Some c /\
    NewExecutionContext token correlationID action lg u w
      = Some (length (heap w), mkWorld (heap w ++ [c]) (sink w)) /\
    Token c = token /\ Action c = action /\ UOW c = None /\
    CorrelationID c =
      (if (String.length (Strings.TrimSpace correlationID) =? 0)%nat
       then Uuid.String u else correlationID) /\
    logger c =
      lg ++ match token with
            | Some t => [FStr "tenantId" (Uuid.String (TenantID t));
                         FStr "userId" (Uuid.String (UserID t));
                         FStr "username" (UserName t);
                         FStr "tenantName" (TenantName t);
                         FStr "userDisplayName" (DisplayName t);
                         FStr "action" action;
                         FStr "correlationId" (CorrelationID c)]
            | None => [FStr "action" action;
                       FStr "correlationId" (CorrelationID c)]
            end.
Proof.
  eexists. unfold created, NewExecutionContext, new. simpl.
  rewrite list_lookup_middle by reflexivity.
  repeat split.
  destruct token; unfold Context_Logger, Context_Str, With; simpl;
    rewrite <- !app_assoc; reflexivity.
Qed.





End MicroappContext.

(* ===================================================================== *)
(** * What the application does to the outside                           *)
(* ===================================================================== *)

Module Runtime.

Import Zerolog Errors.

(** A [*sql.DB] and a [*gorm.DB] that are not nil. *)
Definition SqlDB : Type := nat.
Definition GormDB : Type := nat.

(** [time.Duration]: nanoseconds in an [int64]. *)
Definition Second : Z := 1000000000.
Definition Minute : Z := 60 * Second.

Definition wrap64 (x : Z) : Z := (x + 2 ^ 63) mod 2 ^ 64 - 2 ^ 63.

(** [a * b] on [time.Duration]. *)
Definition Duration_mul (a b : Z) : Z := wrap64 (a * b).

(** [gorm/logger.LogLevel]. *)
Inductive GormLogLevel : Type := GormSilent | GormError | GormWarn | GormInfo.

(** [gorm.Config], with the fields that [initializeDB] sets. *)
Record GormConfig : Type := mkGormConfig
  { PrepareStmt : bool;
    GormLogger : option GormLogLevel;
    NamingStrategySingularTable : option bool }.

(** A call that leaves the program, with its arguments. *)
Inductive Call : Type :=
| Log (l : Line)
| SqlOpen (driverName dataSourceName : string)
| SetConnMaxLifetime (db : option SqlDB) (d : Z)
| SetMaxIdleConns (db : option SqlDB) (n : Z)
| GormOpen (conn : option SqlDB) (conf : GormConfig)
| Sleep (d : Z)
| ListenAndServe
| ListenAndServeTLS (certFile keyFile : string)
| Shutdown (timeout : Z)
| GormDB_DB (db : option GormDB)
| SqlClose (db : option SqlDB).

(** How a function ends: it returns, the process exits, or it panics. *)
Inductive Outcome (A : Type) : Type :=
| Done (a : A)
| Exit (code : Z)
| Panic.

Arguments Done {A} a.
Arguments Exit {A} code.
Arguments Panic {A}.

(** The calls made, in order, and how the function ended. *)
Definition Eff (A : Type) : Type := list Call * Outcome A.

#[global] Instance Eff_ret : MRet Eff := fun A a => ([], Done a).

#[global] Instance Eff_bind : MBind Eff := fun A B f m =>
  match m with
  | (t, Done a) => let '(t', o) := f a in (t ++ t', o)
  | (t, Exit code) => (t, Exit code)
  | (t, Panic) => (t, Panic)
  end.

Definition call (c : Call) : Eff unit := ([c], Done tt).

(** A method called through a pointer: the call is made, and it panics on
    nil as soon as it reads the receiver. *)
Definition method {R} (receiver : option R) (c : Call) : Eff unit :=
  ([c], match receiver with Some _ => Done tt | None => Panic end).

Definition log (l : Line) : Eff unit := call (Log l).

(** [Fatal()...Msg(...)]: the line, then [os.Exit(1)]. *)
Definition fatal {A} (l : Line) : Eff A := ([Log l], Exit 1).

Definition trace {A} (m : Eff A) : list Call := m.1.
Definition outcome {A} (m : Eff A) : Outcome A := m.2.

End Runtime.

(* ===================================================================== *)
(** * Package [retry]                                                    *)
(* ===================================================================== *)

Module Retry.

Import Errors Runtime.

(** What the operation returns, as [Do] tells it apart: a [retry.Stop]
    value with the error it carries, or any other error value or nil. *)
Inductive Returned : Type :=
| Stop (OriginalError : option error)
| Plain (err : option error).

(** Modelled from the spec: [retry.Do], whose source is not among the
    files. It runs the operation up to [attempts] times, one after the
    other. A [Stop] ends the run at once with the error it carries; nil
    ends it at once with nil; after another failure it sleeps [sleep] and
    tries again if attempts remain, and returns that failure if none do.
    The operation is a closure over a variable of type [V]; [fn k] is its
    [k]-th invocation, counted from [first]. *)
Fixpoint Do {V : Type} (attempts : nat) (sleep : Z)
    (fn : nat -> V -> Eff (V * Returned)) (first : nat) (s : V) : Eff (V * option error) :=
  match attempts with
  | O => mret (s, None)
  | S remaining =>
      r ← fn first s;
      match r.2 with
      | Stop OriginalError => mret (r.1, OriginalError)
      | Plain None => mret (r.1, None)
      | Plain (Some err) =>
          match remaining with
          | O => mret (r.1, Some err)
          | S _ => _ ← call (Sleep sleep); Do remaining sleep fn (S first) r.1
          end
      end
  end.

End Retry.

(* ===================================================================== *)
(** * Package [microapp]: the application                                *)
(* ===================================================================== *)

Module Microapp.

Import Zerolog Errors Runtime.

Notation "x |> f" := (f x) (at level 45, left associativity, only parsing).

(** [*config.Config]: the lookups the application makes. *)
Record Config : Type := mkConfig
  { GetString : string -> string;
    GetBool : string -> bool;
    GetInt : string -> Z }.

(** [http.Server], as [Initialize] fills it. *)
Record Server : Type := mkServer
  { Addr : string;
    WriteTimeout : Z;
    ReadTimeout : Z;
    IdleTimeout : Z }.

(** [App], with the fields used below; [DB] and [server] may be nil. *)
Record App : Type := mkApp
  { Name : string;
    AppConfig : Config;
    DB : option GormDB;
    server : option Server;
    applog : Logger }.

(** [http.Request], with what the middleware reads and writes. The header
    is keyed by canonical header names. *)
Record Request : Type := mkRequest
  { Header : gmap string (list string);
    Method : string;
    RequestURI : string }.

Record httpStatusRecorder : Type := mkRecorder { status : Z }.

(** What the driver answers in one attempt to connect: the results of
    [sql.Open] and of [gorm.Open]. *)
Record Attempt : Type := mkAttempt
  { sqlOpen : option SqlDB * option error;
    gormOpen : option GormDB * option error }.

Definition StatusInternalServerError : Z := 500.

Section WithEnvironment.

(** Keys declared in package [config], which is not among the sources. *)
Variables EvSuffixForDBRequired EvSuffixForDBLogLevel EvSuffixForLogLevel : string.
Variables EvSuffixForDBConnectionLifetime EvSuffixForDBMaxIdleConnections : string.

(** [strings.ToLower] and [textproto.CanonicalMIMEHeaderKey] of the Go
    standard library; nothing below depends on what they compute. *)
Variable ToLower : string -> string.
Variable CanonicalMIMEHeaderKey : string -> string.

(** [http.Header.Get] and [http.Header.Set]. *)
Definition Header_Get (h : gmap string (list string)) (key : string) : string :=
  match h !! CanonicalMIMEHeaderKey key with
  | Some (v :: _) => v
  | _ => ""
  end.

Definition Header_Set (h : gmap string (list string)) (key value : string)
    : gmap string (list string) :=
  <[CanonicalMIMEHeaderKey key := [value]]> h.

Definition GetConnectionString (app : App) : string :=
  let dbHost := GetString (AppConfig app) "DB_HOST" in
  let dbName := GetString (AppConfig app) "DB_NAME" in
  let dbPort := GetString (AppConfig app) "DB_PORT" in
  let dbUser := GetString (AppConfig app) "DB_USER" in
  let dbPassword := GetString (AppConfig app) "DB_PWD" in
  dbUser +:+ ":" +:+ dbPassword +:+ "@tcp(" +:+ dbHost +:+ ":" +:+ dbPort +:+ ")/" +:+ dbName
  +:+ "?multiStatements=true&charset=utf8&parseTime=True&loc=Local".

(** The operation that [initializeDB] hands to [retry.Do]; [db] is the
    variable of [initializeDB] that the closure assigns. *)
Definition initializeDB_attempt (app : App) (answer : Attempt) (db : option GormDB)
    : Eff (option GormDB * Retry.Returned) :=
  let dbconf := mkGormConfig true None None in
  let level := ToLower (GetString (AppConfig app) EvSuffixForDBLogLevel) in
  let dbconf :=
    if String.eqb level "info" then
      mkGormConfig (PrepareStmt dbconf) (Some GormInfo) (NamingStrategySingularTable dbconf)
    else if String.eqb level "warn" then
      mkGormConfig (PrepareStmt dbconf) (Some GormWarn) (NamingStrategySingularTable dbconf)
    else if String.eqb level "error" then
      mkGormConfig (PrepareStmt dbconf) (Some GormError) (NamingStrategySingularTable dbconf)
    else if String.eqb level "silent" then
      mkGormConfig (PrepareStmt dbconf) (Some GormSilent) (NamingStrategySingularTable dbconf)
    else if String.eqb (ToLower (GetString (AppConfig app) EvSuffixForLogLevel)) "trace" then
      mkGormConfig (PrepareStmt dbconf) (Some GormInfo) (NamingStrategySingularTable dbconf)
    else
      mkGormConfig (PrepareStmt dbconf) (Some GormError) (NamingStrategySingularTable dbconf) in
  let dbconf :=
    if GetBool (AppConfig app) "DB_NAMING_STRATEGY_IS_SINGULAR" then
      mkGormConfig (PrepareStmt dbconf) (GormLogger dbconf) (Some true)
    else dbconf in
  _ ← call (SqlOpen "mysql" (GetConnectionString app));
  let '(sqlDB, err) := sqlOpen answer in
  _ ← match err with
      | Some e =>
          log (Zerolog.Error (applog app) |> Event_Err err
               |> Event_Msg ("Error creating connection pool [" +:+ Errors.Error e
                             +:+ "]. Trying again..."))
      | None => mret tt
      end;
  _ ← method sqlDB
        (SetConnMaxLifetime sqlDB
           (Duration_mul (GetInt (AppConfig app) EvSuffixForDBConnectionLifetime) Minute));
  _ ← method sqlDB
        (SetMaxIdleConns sqlDB (GetInt (AppConfig app) EvSuffixForDBMaxIdleConnections));
  _ ← call (GormOpen sqlDB dbconf);
  let '(db, err) := gormOpen answer in
  match err with
  | Some e =>
      if Strings.Contains (Errors.Error e) "connection refused" then
        _ ← log (Warn (applog app)
                 |> Event_Msg ("Error connecting to Database [" +:+ Errors.Error e
                               +:+ "]. Trying again..."));
        mret (db, Retry.Plain err)
      else mret (db, Retry.Stop err)
  | None => mret (db, Retry.Stop err)
  end.

(** [initializeDB]; [answers k] is what the driver answers in attempt [k].
    Returns the application as assigned, and the error. *)
Definition initializeDB (app : App) (answers : nat -> Attempt) : Eff (App * option error) :=
  if GetBool (AppConfig app) EvSuffixForDBRequired then
    r ← Retry.Do 3 (15 * Second)
          (fun k db => initializeDB_attempt app (answers k) db) 0 None;
    let app := mkApp (Name app) (AppConfig app) r.1 (server app) (applog app) in
    _ ← log (Info (applog app) |> Event_Msg "Database connected!");
    mret (app, r.2)
  else mret (app, None).

(** [StartSecure]; [listenErr] is what [ListenAndServeTLS] returns. *)
Definition StartSecure (app : App) (tlsCert tlsKey : string) (listenErr : option error)
    : Eff unit :=
  _ ← (if String.eqb tlsCert "" then
         fatal (Fatal (applog app)
                |> Event_Msg "TLS_CRT is not defined or empty, exiting the application!")
       else mret tt);
  _ ← (if String.eqb tlsKey "" then
         fatal (Fatal (applog app)
                |> Event_Msg "TLS_KEY is not defined or empty, exiting the application!")
       else mret tt);
  _ ← method (server app) (ListenAndServeTLS tlsCert tlsKey);
  match listenErr with
  | Some _ =>
      fatal (Fatal (applog app) |> Event_Err listenErr
             |> Event_Msg "Unable to start server or server stopped, exiting the application!")
  | None => mret tt
  end.

(** [Start]; [listenErr] is what the listener returns when it stops. *)
Definition Start (app : App) (listenErr : option error) : Eff unit :=
  if String.eqb (GetString (AppConfig app) "ENABLE_TLS") "true" then
    StartSecure app (GetString (AppConfig app) "TLS_CRT")
      (GetString (AppConfig app) "TLS_KEY") listenErr
  else
    _ ← method (server app) ListenAndServe;
    match listenErr with
    | Some ErrServerClosed => mret tt
    | Some _ =>
        fatal (Fatal (applog app) |> Event_Err listenErr
               |> Event_Msg "Unable to start server, exiting the application!")
    | None => mret tt
    end.

(** [App.Logger(module)]. *)
Definition Logger (app : App) (module : string) : Zerolog.Logger :=
  With (applog app)
  |> Context_Str "service" (Name app)
  |> Context_Str "module" module
  |> Context_Logger.

(** [Stop]; [handle] is what [app.DB.DB()] returns. The wait is
    [time.ParseDuration("2m")]. *)
Definition Stop (app : App) (handle : option SqlDB * option error) : Eff unit :=
  let wait := 2 * Minute in
  _ ← method (server app) (Shutdown wait);
  if GetBool (AppConfig app) "DB_REQUIRED" then
    _ ← method (DB app) (GormDB_DB (DB app));
    let '(sqlDB, err) := handle in
    match err with
    | Some _ => method sqlDB (SqlClose sqlDB)
    | None => mret tt
    end
  else mret tt.

(** [httpStatusRecorder.WriteHeader], on the recorder's own field. *)
Definition WriteHeader (rec : httpStatusRecorder) (code : Z) : httpStatusRecorder :=
  mkRecorder code.

(** A handler: given the recorder and the request, both by pointer, it
    leaves them in some state, or does not return. *)
Definition Handler : Type :=
  httpStatusRecorder -> Request -> Eff (httpStatusRecorder * Request).

(** The function that [loggingMiddleware] returns, applied to a request.
    [u] is what [uuid.NewV4()] returns if it is called, [startTime] and
    [endTime] are the two readings of the clock. *)
Definition loggingMiddleware (app : App) (next : Handler) (r : Request)
    (u : Uuid.UUID) (startTime endTime : Z) : Eff (httpStatusRecorder * Request) :=
  let r :=
    if String.eqb (Header_Get (Header r) "X-Correlation-ID") "" then
      mkRequest (Header_Set (Header r) "X-Correlation-ID" (Uuid.String u))
        (Method r) (RequestURI r)
    else r in
  let logger :=
    With (Logger app "Ingress")
    |> Context_Timestamp
    |> Context_Str "caller" (Header_Get (Header r) "X-Client")
    |> Context_Str "correlationId" (Header_Get (Header r) "X-Correlation-ID")
    |> Context_Str "method" (Method r)
    |> Context_Str "requestURI" (RequestURI r)
    |> Context_Logger in
  let rec := mkRecorder 0 in
  _ ← log (Info logger |> Event_Msg "Begin");
  served ← next rec r;
  let rec := served.1 in
  _ ← (if status rec >=? StatusInternalServerError then
         log (Zerolog.Error logger |> Event_Int "status" (status rec)
              |> Event_Dur "responseTime" (endTime - startTime) |> Event_Msg "End.")
       else
         log (Info logger |> Event_Int "status" (status rec)
              |> Event_Dur "responseTime" (endTime - startTime) |> Event_Msg "End."));
  mret served.

Definition GetCorrelationIDFromRequest (r : Request) : string :=
  Header_Get (Header r) "X-Correlation-ID".

(** ** Reading a run *)

Definition isClose (c : Call) : bool :=
  match c with SqlClose _ => true | _ => false end.

Definition isListen (c : Call) : bool :=
  match c with ListenAndServe | ListenAndServeTLS _ _ => true | _ => false end.

Definition isSqlOpen (c : Call) : bool :=
  match c with SqlOpen _ _ => true | _ => false end.

(** The process was ended by a fatal log line. *)
Definition fatally {A} (m : Eff A) : Prop := outcome m = Exit 1.

(** How many attempts to connect a run made: each starts with [sql.Open]. *)
Definition attempts_made (t : list Call) : nat := length (filter isSqlOpen t).

(** ** Stop *)

(** C5. [Stop] first asks the server to shut down, waiting at most two
    minutes. It calls [Close] on the SQL handle exactly when the database is
    required and obtaining the handle returned an error (the server and the
    database object being there, as otherwise [Stop] panics earlier); when
    the handle is obtained without error, [Close] is not called. *)
Theorem Stop_closes_only_if_handle_fails app handle :
  (exists rest, trace (Stop app handle) = Shutdown 120000000000 :: rest) /\
  existsb isClose (trace (Stop app handle)) =
    bool_decide (is_Some (server app)) && GetBool (AppConfig app) "DB_REQUIRED"
    && bool_decide (is_Some (DB app)) && bool_decide (is_Some handle.2) /\
  (handle.2 = None -> existsb isClose (trace (Stop app handle)) = false) /\
  (GetBool (AppConfig app) "DB_REQUIRED" = false ->
     existsb isClose (trace (Stop app handle)) = false).
Proof.
  destruct app as [name cfg db srv lg], handle as [sqlDB err]. unfold Stop. simpl.
  destruct srv, (GetBool cfg "DB_REQUIRED"), db, err, sqlDB; simpl;
    (split; [eexists; reflexivity|]); (split; [reflexivity|]);
    split; intros; try reflexivity; discriminate.
Qed.

(** ** Start *)

(** What [Start] does with the listener's error, path by path, as the two
    paths are written. Without TLS, a listener that stops with
    [http.ErrServerClosed] lets [Start] return and any other error is
    fatal. With TLS, an empty certificate path or key path is fatal before
    any attempt to listen, and [StartSecure], which has no test against
    [http.ErrServerClosed], is fatal on every error the listener returns. *)
Theorem Start_fatal_conditions app srv :
  server app = Some srv ->
  (GetString (AppConfig app) "ENABLE_TLS" <> "true" ->
     Start app (Some ErrServerClosed) = ([ListenAndServe], Done tt) /\
     forall e, e <> ErrServerClosed ->
       fatally (Start app (Some e)) /\
       trace (Start app (Some e)) =
         [ListenAndServe;
          Log (mkLine FatalLevel (applog app ++ [FErr (Errors.Error e)])
                 "Unable to start server, exiting the application!")]) /\
  (GetString (AppConfig app) "ENABLE_TLS" = "true" ->
     (GetString (AppConfig app) "TLS_CRT" = "" \/ GetString (AppConfig app) "TLS_KEY" = "" ->
        forall listenErr,
          fatally (Start app listenErr) /\
          existsb isListen (trace (Start app listenErr)) = false) /\
     (GetString (AppConfig app) "TLS_CRT" <> "" -> GetString (AppConfig app) "TLS_KEY" <> "" ->
        forall e,
          fatally (Start app (Some e)) /\
          trace (Start app (Some e)) =
            [ListenAndServeTLS (GetString (AppConfig app) "TLS_CRT")
               (GetString (AppConfig app) "TLS_KEY");
             Log (mkLine FatalLevel (applog app ++ [FErr (Errors.Error e)])
                    "Unable to start server or server stopped, exiting the application!")])).
Proof.
  intros Hsrv. unfold Start, fatally. split.
  - intros Htls%String.eqb_neq. rewrite Htls, Hsrv. split; [reflexivity|].
    intros e He. destruct e; try congruence; split; reflexivity.
  - intros Htls. rewrite Htls. simpl. unfold StartSecure. rewrite Hsrv. split.
    + intros [-> | Hk] listenErr; [split; reflexivity|].
      rewrite Hk.
      destruct (String.eqb (GetString (AppConfig app) "TLS_CRT") ""); split; reflexivity.
    + intros Hc%String.eqb_neq Hk%String.eqb_neq e. rewrite Hc, Hk.
      split; reflexivity.
Qed.

(** ** The database bootstrap *)

Lemma trace_bind {A B} (m : Eff A) (f : A -> Eff B) :
  trace (m ≫= f) =
  trace m ++ match outcome m with Done a => trace (f a) | _ => [] end.
Proof.
  destruct m as [t [a | code |]]; unfold mbind, Eff_bind, trace, outcome; simpl.
  - destruct (f a). reflexivity.
  - symmetry. apply app_nil_r.
  - symmetry. apply app_nil_r.
Qed.

Lemma outcome_bind {A B} (m : Eff A) (f : A -> Eff B) :
  outcome (m ≫= f) =
  match outcome m with
  | Done a => outcome (f a)
  | Exit code => Exit code
  | Panic => Panic
  end.
Proof.
  destruct m as [t [a | code |]]; unfold mbind, Eff_bind, outcome; simpl; try reflexivity.
  destruct (f a). reflexivity.
Qed.

Lemma attempts_made_app t1 t2 :
  attempts_made (t1 ++ t2) = (attempts_made t1 + attempts_made t2)%nat.
Proof. unfold attempts_made. rewrite filter_app, length_app. reflexivity. Qed.

(** The error of [gorm.Open] that the operation hands back for a retry. *)
Definition refused (err : option error) : bool :=
  match err with
  | Some e => Strings.Contains (Errors.Error e) "connection refused"
  | None => false
  end.

(** What the operation returns once [gorm.Open] has answered. *)
Definition returned (err : option error) : Retry.Returned :=
  if refused err then Retry.Plain err else Retry.Stop err.

(** One attempt opens the pool once; it panics on a nil pool handle and
    otherwise returns by the answer of [gorm.Open] alone. *)
Lemma attempt_cases app answer db :
  attempts_made (trace (initializeDB_attempt app answer db)) = 1%nat /\
  match (sqlOpen answer).1 with
  | Some _ =>
      outcome (initializeDB_attempt app answer db) =
      Done ((gormOpen answer).1, returned (gormOpen answer).2)
  | None => outcome (initializeDB_attempt app answer db) = Panic
  end.
Proof.
  destruct answer as [[sqlDB serr] [gdb gerr]].
  unfold initializeDB_attempt, returned, refused. simpl.
  destruct sqlDB, serr, gerr as [g|]; simpl; try (split; reflexivity);
    destruct (Strings.Contains (Errors.Error g) "connection refused");
    split; reflexivity.
Qed.

Lemma refused_plain err : refused err = true -> exists e, err = Some e.
Proof. destruct err; [eauto | discriminate]. Qed.

Lemma Do_S {V} n sleep (fn : nat -> V -> Eff (V * Retry.Returned)) first s :
  Retry.Do (S n) sleep fn first s =
  (r ← fn first s;
   match r.2 with
   | Retry.Stop OriginalError => mret (r.1, OriginalError)
   | Retry.Plain None => mret (r.1, None)
   | Retry.Plain (Some err) =>
       match n with
       | O => mret (r.1, Some err)
       | S _ => _ ← call (Sleep sleep); Retry.Do n sleep fn (S first) r.1
       end
   end).
Proof. reflexivity. Qed.

(** Under [retry.Do], an attempt is followed by another one only if its
    [gorm.Open] failed with a connection refused. *)
Lemma Do_retries_only_refused app (answers : nat -> Attempt) sleep :
  forall n first db j,
    (S j < attempts_made
             (trace (Retry.Do n sleep
                       (fun k db => initializeDB_attempt app (answers k) db) first db)))%nat ->
    refused (gormOpen (answers (first + j)%nat)).2 = true.
Proof.
  induction n as [|n IH]; intros first db j Hj.
  - unfold attempts_made in Hj. simpl in Hj. lia.
  - rewrite Do_S, trace_bind, attempts_made_app in Hj.
    destruct (attempt_cases app (answers first) db) as [H1 Ho].
    rewrite H1 in Hj.
    destruct (sqlOpen (answers first)).1.
    2:{ rewrite Ho in Hj. unfold attempts_made in Hj. simpl in Hj. lia. }
    rewrite Ho in Hj. cbv beta iota in Hj. cbn [fst snd] in Hj. unfold returned in Hj.
    destruct (refused (gormOpen (answers first)).2) eqn:Hr.
    2:{ unfold attempts_made in Hj. simpl in Hj. lia. }
    destruct (refused_plain _ Hr) as [e He]. rewrite He in Hj. cbv beta iota in Hj.
    destruct n as [|n].
    { unfold attempts_made in Hj. simpl in Hj. lia. }
    rewrite trace_bind, attempts_made_app in Hj.
    change (attempts_made (trace (call (Sleep sleep)))) with 0%nat in Hj.
    change (outcome (call (Sleep sleep))) with (Done tt) in Hj.
    cbv beta iota in Hj.
    destruct j as [|j].
    + rewrite Nat.add_0_r. exact Hr.
    + replace (first + S j)%nat with (S first + j)%nat by lia.
      eapply IH with (db := (gormOpen (answers first)).1). lia.
Qed.

(** C7. Once the pool handle is there, the operation returns the error of
    [gorm.Open] as it is exactly when that error is not nil and its text
    contains "connection refused"; in every other case, nil included, it
    returns [retry.Stop] carrying that error. Under [retry.Do] an attempt is
    therefore repeated only after a connection refused. *)
Theorem attempt_retries_only_connection_refused app :
  (forall answer db h,
      (sqlOpen answer).1 = Some h ->
      outcome (initializeDB_attempt app answer db) =
        Done ((gormOpen answer).1,
              match (gormOpen answer).2 with
              | Some e =>
                  if Strings.Contains (Errors.Error e) "connection refused"
                  then Retry.Plain (Some e) else Retry.Stop (Some e)
              | None => Retry.Stop None
              end))
  /\
  (forall answers j,
      (S j < attempts_made (trace (initializeDB app answers)))%nat ->
      exists e, (gormOpen (answers j)).2 = Some e /\
                Strings.Contains (Errors.Error e) "connection refused" = true).
Proof.
  split.
  - intros answer db h Hh.
    destruct (attempt_cases app answer db) as [_ Ho]. rewrite Hh in Ho. rewrite Ho.
    unfold returned, refused. destruct (gormOpen answer).2 as [e|]; reflexivity.
  - intros answers j Hj. unfold initializeDB in Hj.
    destruct (GetBool (AppConfig app) EvSuffixForDBRequired).
    2:{ unfold attempts_made in Hj. simpl in Hj. lia. }
    rewrite trace_bind, attempts_made_app in Hj.
    assert (Hd : (S j < attempts_made
                         (trace (Retry.Do 3 (15 * Second)
                                   (fun k db => initializeDB_attempt app (answers k) db)
                                   0 None)))%nat).
    { destruct (outcome (Retry.Do 3 (15 * Second) _ 0%nat None)) as [r | |];
        unfold attempts_made in Hj |- *; simpl in Hj; simpl; lia. }
    apply Do_retries_only_refused in Hd. simpl in Hd.
    unfold refused in Hd. destruct (gormOpen (answers j)).2 as [e|]; [eauto | discriminate].
Qed.

(** C9. Whenever [retry.Do] returns, with an error or without, [initializeDB]
    assigns the connection it got (nil or not) to [DB], writes the info line
    "Database connected!", and returns that error. *)
Theorem initializeDB_reports_connected_whatever_the_error app answers t db err :
  GetBool (AppConfig app) EvSuffixForDBRequired = true ->
  Retry.Do 3 (15 * Second) (fun k db => initializeDB_attempt app (answers k) db) 0 None
    = (t, Done (db, err)) ->
  initializeDB app answers =
    (t ++ [Log (mkLine InfoLevel (applog app) "Database connected!")],
     Done (mkApp (Name app) (AppConfig app) db (server app) (applog app), err)).
Proof.
  intros Hreq Hdo. unfold initializeDB. rewrite Hreq, Hdo. reflexivity.
Qed.

(** C10. When [sql.Open] returns an error the attempt writes one error line
    and goes on as it does without the error: it calls [SetConnMaxLifetime]
    on the handle it got, and ends as the attempt without the error ends;
    on a nil handle that call panics. *)
Theorem pool_error_is_logged_and_attempt_goes_on app sqlDB e gres db :
  exists rest,
    trace (initializeDB_attempt app (mkAttempt (sqlDB, None) gres) db) =
      SqlOpen "mysql" (GetConnectionString app)
      :: SetConnMaxLifetime sqlDB
           (Duration_mul (GetInt (AppConfig app) EvSuffixForDBConnectionLifetime) Minute)
      :: rest /\
    trace (initializeDB_attempt app (mkAttempt (sqlDB, Some e) gres) db) =
      SqlOpen "mysql" (GetConnectionString app)
      :: Log (mkLine ErrorLevel (applog app ++ [FErr (Errors.Error e)])
                ("Error creating connection pool [" +:+ Errors.Error e
                 +:+ "]. Trying again..."))
      :: SetConnMaxLifetime sqlDB
           (Duration_mul (GetInt (AppConfig app) EvSuffixForDBConnectionLifetime) Minute)
      :: rest /\
    outcome (initializeDB_attempt app (mkAttempt (sqlDB, Some e) gres) db) =
      outcome (initializeDB_attempt app (mkAttempt (sqlDB, None) gres) db) /\
    (sqlDB = None ->
       rest = [] /\
       outcome (initializeDB_attempt app (mkAttempt (sqlDB, Some e) gres) db) = Panic) /\
    (forall h, sqlDB = Some h ->
       existsb (fun c => match c with SetMaxIdleConns _ _ => true | _ => false end) rest = true /\
       existsb (fun c => match c with GormOpen _ _ => true | _ => false end) rest = true).
Proof.
  destruct gres as [gdb gerr]. unfold initializeDB_attempt. simpl.
  destruct sqlDB as [h|]; simpl.
  - destruct gerr as [g|]; simpl;
      [destruct (Strings.Contains (Errors.Error g) "connection refused")|];
      eexists; (split; [reflexivity|]); (split; [reflexivity|]);
      (split; [reflexivity|]); (split; [discriminate|]);
      intros ? _; split; reflexivity.
  - eexists. split; [reflexivity|]. split; [reflexivity|]. split; [reflexivity|].
    split; [intros _; split; reflexivity | discriminate].
Qed.

(** ** The logging middleware *)

Lemma lookupStr_app key l r :
  lookupStr key (l ++ r) =
  match lookupStr key r with
  | Some v => Some v
  | None => lookupStr key l
  end.
Proof.
  induction l as [|f l IH]; simpl.
  - destruct (lookupStr key r); reflexivity.
  - rewrite IH. destruct (lookupStr key r); reflexivity.
Qed.

Lemma Header_Get_Set h key value : Header_Get (Header_Set h key value) key = value.
Proof. unfold Header_Get, Header_Set. rewrite lookup_insert_eq. reflexivity. Qed.

(** The request that the middleware hands on when the header is empty. *)
Definition stamped (r : Request) (u : Uuid.UUID) : Request :=
  mkRequest (Header_Set (Header r) "X-Correlation-ID" (Uuid.String u))
    (Method r) (RequestURI r).

(** The fields of the request-scoped logger, and the two lines. *)
Definition ingress_fields (app : App) (r : Request) : list Field :=
  applog app ++
  [FStr "service" (Name app); FStr "module" "Ingress"; FTimestamp;
   FStr "caller" (Header_Get (Header r) "X-Client");
   FStr "correlationId" (Header_Get (Header r) "X-Correlation-ID");
   FStr "method" (Method r); FStr "requestURI" (RequestURI r)].

Definition begin_line (app : App) (r : Request) : Line :=
  mkLine InfoLevel (ingress_fields app r) "Begin".

Definition end_line (app : App) (r : Request) (rec : httpStatusRecorder)
    (elapsed : Z) : Line :=
  mkLine (if status rec >=? 500 then ErrorLevel else InfoLevel)
    (ingress_fields app r ++ [FInt "status" (status rec); FDur "responseTime" elapsed])
    "End.".

(** C8. When the request carries no correlation id, the middleware writes
    the text of a new UUID into the header before it builds its logger and
    before the handler runs. The handler is called with that request, whose
    correlation id is therefore not empty; the begin line, and the end line
    written when the handler returns, carry the same id; and a root
    execution context built from the id read off that request carries it
    too. *)
Theorem middleware_stamps_generated_correlation_id app next r u startTime endTime :
  Header_Get (Header r) "X-Correlation-ID" = "" ->
  length u = 16%nat ->
  GetCorrelationIDFromRequest (stamped r u) = Uuid.String u /\
  Uuid.String u <> "" /\
  trace (loggingMiddleware app next r u startTime endTime) =
    Log (begin_line app (stamped r u))
    :: trace (next (mkRecorder 0) (stamped r u))
    ++ match outcome (next (mkRecorder 0) (stamped r u)) with
       | Done served =>
           [Log (end_line app (stamped r u) served.1 (endTime - startTime))]
       | _ => []
       end /\
  outcome (loggingMiddleware app next r u startTime endTime) =
    outcome (next (mkRecorder 0) (stamped r u)) /\
  lookupStr "correlationId" (line_fields (begin_line app (stamped r u)))
    = Some (Uuid.String u) /\
  (forall rec elapsed,
      lookupStr "correlationId" (line_fields (end_line app (stamped r u) rec elapsed))
      = Some (Uuid.String u)) /\
  (forall token action lg u' w,
      exists c,
        MicroappContext.created
          (MicroappContext.NewExecutionContext token
             (GetCorrelationIDFromRequest (stamped r u)) action lg u') w = Some c /\
        MicroappContext.CorrelationID c = Uuid.String u).
Proof.
  intros Hempty Hu.
  assert (Hget : GetCorrelationIDFromRequest (stamped r u) = Uuid.String u).
  { unfold GetCorrelationIDFromRequest, stamped. simpl. apply Header_Get_Set. }
  assert (Hfields : forall extra,
             lookupStr "correlationId" (ingress_fields app (stamped r u) ++ extra)
             = match lookupStr "correlationId" extra with
               | Some v => Some v
               | None => Some (Uuid.String u)
               end).
  { intros extra. unfold ingress_fields.
    change (Header_Get (Header (stamped r u)) "X-Correlation-ID")
      with (GetCorrelationIDFromRequest (stamped r u)).
    rewrite Hget, !lookupStr_app. destruct (lookupStr "correlationId" extra); reflexivity. }
  split; [exact Hget|]. split; [apply UuidFacts.String_nonempty|].
  assert (Hrun : loggingMiddleware app next r u startTime endTime =
            (_ ← log (begin_line app (stamped r u));
             served ← next (mkRecorder 0) (stamped r u);
             _ ← log (end_line app (stamped r u) served.1 (endTime - startTime));
             mret served)).
  { unfold loggingMiddleware. rewrite Hempty. simpl String.eqb. cbv iota.
    fold (stamped r u).
    unfold begin_line, end_line, ingress_fields, Logger, StatusInternalServerError,
      Event_Msg, Event_Dur, Event_Int, Event_add, Zerolog.Error, Info, newEvent,
      Context_Logger, Context_Str, Context_Timestamp, With.
    destruct (next (mkRecorder 0) (stamped r u)) as [t [served | code |]];
      unfold mbind, Eff_bind, log, call; simpl; rewrite <- ?app_assoc; simpl;
      [|reflexivity|reflexivity].
    destruct (status served.1 >=? 500); simpl; rewrite <- ?app_assoc; reflexivity. }
  split; [|split; [|split; [|split]]].
  - rewrite Hrun.
    destruct (next (mkRecorder 0) (stamped r u)) as [t [served | code |]];
      unfold mbind, Eff_bind, log, call, trace, outcome; simpl;
      rewrite ?app_nil_r; reflexivity.
  - rewrite Hrun.
    destruct (next (mkRecorder 0) (stamped r u)) as [t [served | code |]];
      unfold mbind, Eff_bind, log, call, trace, outcome; simpl; reflexivity.
  - unfold begin_line. simpl line_fields.
    rewrite <- (app_nil_r (ingress_fields app (stamped r u))), Hfields. reflexivity.
  - intros rec elapsed. unfold end_line. simpl line_fields.
    rewrite Hfields. reflexivity.
  - intros token action lg u' w.
    destruct (MicroappContext.NewExecutionContext_created token
                (GetCorrelationIDFromRequest (stamped r u)) action lg u' w)
      as (c & Hc & _ & _ & _ & _ & Hcid & _).
    exists c. split; [exact Hc|].
    rewrite Hcid, Hget, (UuidFacts.TrimSpace_String u Hu),
      (UuidFacts.String_length u Hu). reflexivity.
Qed.

End WithEnvironment.

(** ** Concrete runs *)

Definition demo_server : Server := mkServer "0.0.0.0:80" 0 0 0.

(** A configuration without TLS that requires the database. *)
Definition plain_config : Config :=
  mkConfig
    (fun key => if String.eqb key "DB_HOST" then "db" else "")
    (fun key => String.eqb key "DB_REQUIRED")
    (fun key => 5).

(** A configuration with TLS, certificate and key in place. *)
Definition tls_config : Config :=
  mkConfig
    (fun key =>
       if String.eqb key "ENABLE_TLS" then "true"
       else if String.eqb key "TLS_CRT" then "server.crt"
       else if String.eqb key "TLS_KEY" then "server.key"
       else "")
    (fun key => false)
    (fun key => 0).

Definition plain_app : App :=
  mkApp "tenant" plain_config (Some 1%nat) (Some demo_server) [FStr "service" "tenant"].

Definition tls_app : App :=
  mkApp "tenant" tls_config None (Some demo_server) [FStr "service" "tenant"].

Definition refusing : Attempt :=
  mkAttempt (Some 1%nat, None)
    (None, Some (errorString "dial tcp 10.0.0.5:3306: connect: connection refused")).

Definition denying : Attempt :=
  mkAttempt (Some 1%nat, None)
    (Some 2%nat, Some (errorString "Error 1045: Access denied for user")).

(** The database refuses the first connection and denies access on the second. *)
Definition demo_answers (k : nat) : Attempt :=
  match k with
  | O => refusing
  | S _ => denying
  end.

Definition demo_initializeDB : App -> (nat -> Attempt) -> Eff (App * option error) :=
  initializeDB "DB_REQUIRED" "DB_LOG_LEVEL" "LOG_LEVEL" "DB_CONNECTION_LIFETIME"
    "DB_MAX_IDLE_CONNECTIONS" (fun s => s).

Definition demo_attempt : App -> Attempt -> option GormDB -> Eff (option GormDB * Retry.Returned) :=
  initializeDB_attempt "DB_LOG_LEVEL" "LOG_LEVEL" "DB_CONNECTION_LIFETIME"
    "DB_MAX_IDLE_CONNECTIONS" (fun s => s).

Definition demo_request : Request := mkRequest ∅ "GET" "/api/tenants/7".

Definition demo_handler : Handler :=
  fun rec r => ([], Done (WriteHeader rec 200, r)).

Lemma Stop_closes_only_if_handle_fails_witness :
  existsb isClose (trace (Stop plain_app (Some 3%nat, None))) = false.
Proof.
  apply (proj1 (proj2 (proj2 (Stop_closes_only_if_handle_fails plain_app (Some 3%nat, None))))).
  reflexivity.
Defined.

(** The claim of C6 on one application: a listener that stops with
    [http.ErrServerClosed] lets [Start] return. *)
Definition server_closed_is_not_fatal (app : App) : Prop :=
  outcome (Start app (Some ErrServerClosed)) = Done tt.

(** C6. The claim fails in the TLS path: [StartSecure] lacks the test
    against [http.ErrServerClosed] that the plain branch of [Start] makes.
    With TLS enabled, certificate and key in place and the server
    initialised, a listener that stops with [http.ErrServerClosed] (as it
    does after [Stop] has called [Shutdown]) does not let [Start] return:
    the fatal line is written and the process exits with code 1. *)
Lemma Start_TLS_server_closed_is_fatal :
  GetString (AppConfig tls_app) "ENABLE_TLS" = "true" /\
  ~ server_closed_is_not_fatal tls_app /\
  Start tls_app (Some ErrServerClosed) =
    ([ListenAndServeTLS "server.crt" "server.key";
      Log (mkLine FatalLevel [FStr "service" "tenant"; FErr "http: Server closed"]
             "Unable to start server or server stopped, exiting the application!")],
     Exit 1).
Proof.
  split; [reflexivity|]. split; [|reflexivity].
  unfold server_closed_is_not_fatal. vm_compute. discriminate.
Qed.

Lemma Start_fatal_conditions_witness :
  Start plain_app (Some ErrServerClosed) = ([ListenAndServe], Done tt) /\
  fatally (Start plain_app (Some (errorString "listen tcp :80: bind: address already in use"))) /\
  fatally (Start tls_app (Some ErrServerClosed)).
Proof.
  split; [|split].
  - apply (proj1 (Start_fatal_conditions plain_app demo_server eq_refl)).
    vm_compute. discriminate.
  - apply (proj1 (Start_fatal_conditions plain_app demo_server eq_refl)).
    + vm_compute. discriminate.
    + discriminate.
  - apply (proj2 (Start_fatal_conditions tls_app demo_server eq_refl)).
    + reflexivity.
    + vm_compute. discriminate.
    + vm_compute. discriminate.
Defined.

Lemma attempt_retries_only_connection_refused_witness :
  outcome (demo_attempt plain_app denying None) =
    Done (Some 2%nat,
          Retry.Stop (Some (errorString "Error 1045: Access denied for user"))) /\
  exists e, (gormOpen (demo_answers 0)).2 = Some e /\
            Strings.Contains (Errors.Error e) "connection refused" = true.
Proof.
  split.
  - apply (proj1 (attempt_retries_only_connection_refused
                    "DB_REQUIRED" "DB_LOG_LEVEL" "LOG_LEVEL" "DB_CONNECTION_LIFETIME"
                    "DB_MAX_IDLE_CONNECTIONS" (fun s => s) plain_app)
             denying None 1%nat).
    reflexivity.
  - apply (proj2 (attempt_retries_only_connection_refused
                    "DB_REQUIRED" "DB_LOG_LEVEL" "LOG_LEVEL" "DB_CONNECTION_LIFETIME"
                    "DB_MAX_IDLE_CONNECTIONS" (fun s => s) plain_app)
             demo_answers 0%nat).
    vm_compute. lia.
Defined.

Lemma initializeDB_reports_connected_whatever_the_error_witness :
  exists t,
    demo_initializeDB plain_app (fun _ => denying) =
      (t ++ [Log (mkLine InfoLevel [FStr "service" "tenant"] "Database connected!")],
       Done (mkApp "tenant" plain_config (Some 2%nat) (Some demo_server)
               [FStr "service" "tenant"],
             Some (errorString "Error 1045: Access denied for user"))).
Proof.
  eexists.
  apply (initializeDB_reports_connected_whatever_the_error
           "DB_REQUIRED" "DB_LOG_LEVEL" "LOG_LEVEL" "DB_CONNECTION_LIFETIME"
           "DB_MAX_IDLE_CONNECTIONS" (fun s => s) plain_app (fun _ => denying)).
  - reflexivity.
  - reflexivity.
Defined.

Lemma pool_error_is_logged_and_attempt_goes_on_witness :
  outcome (demo_attempt plain_app
             (mkAttempt (None, Some (errorString "sql: unknown driver")) (None, None)) None)
  = Panic.
Proof.
  destruct (pool_error_is_logged_and_attempt_goes_on
              "DB_LOG_LEVEL" "LOG_LEVEL" "DB_CONNECTION_LIFETIME" "DB_MAX_IDLE_CONNECTIONS"
              (fun s => s) plain_app None (errorString "sql: unknown driver")
              (None, None) None) as (rest & _ & _ & _ & Hnil & _).
  exact (proj2 (Hnil eq_refl)).
Defined.

Lemma middleware_stamps_generated_correlation_id_witness :
  GetCorrelationIDFromRequest (fun key => key) (stamped (fun key => key) demo_request Uuid.Nil)
    = "00000000-0000-0000-0000-000000000000" /\
  outcome (loggingMiddleware (fun key => key) plain_app demo_handler demo_request Uuid.Nil 5 9)
    = outcome (demo_handler (mkRecorder 0) (stamped (fun key => key) demo_request Uuid.Nil)) /\
  lookupStr "correlationId"
    (line_fields (begin_line (fun key => key) plain_app
                    (stamped (fun key => key) demo_request Uuid.Nil)))
    = Some "00000000-0000-0000-0000-000000000000".
Proof.
  destruct (middleware_stamps_generated_correlation_id (fun key => key)
              plain_app demo_handler demo_request Uuid.Nil 5 9 eq_refl eq_refl)
    as (Hget & _ & _ & Hout & Hbegin & _).
  split; [exact Hget|]. split; [exact Hout | exact Hbegin].
Defined.

End Microapp.

(* ===================================================================== *)
(** * Checks on concrete inputs                                          *)
(* ===================================================================== *)

Module Checks.

Import Zerolog Errors Runtime.

Example TrimSpace_mixed :
  Strings.TrimSpace
    (String "009" (String "032" "a b" +:+ String "194" (String "160" ""))) = "a b".
Proof. vm_compute. reflexivity. Qed.

Example TrimSpace_blank : String.length (Strings.TrimSpace "   ") = 0%nat.
Proof. reflexivity. Qed.

Example TrimSpace_inner_space_kept : Strings.TrimSpace " req 1 " = "req 1".
Proof. vm_compute. reflexivity. Qed.

Example Contains_refused :
  Strings.Contains "dial tcp 10.0.0.5:3306: connect: connection refused"
    "connection refused" = true.
Proof. reflexivity. Qed.

Example Contains_denied :
  Strings.Contains "Error 1045: Access denied for user" "connection refused" = false.
Proof. reflexivity. Qed.

Example String_of_Nil : Uuid.String Uuid.Nil = "00000000-0000-0000-0000-000000000000".
Proof. vm_compute. reflexivity. Qed.

(** An operation that fails [failures] times and then succeeds. *)
Definition flaky (failures : nat) (k : nat) (s : unit) : Eff (unit * Retry.Returned) :=
  _ ← call (SqlOpen "mysql" "");
  mret (s, if (k <? failures)%nat
           then Retry.Plain (Some (errorString "not yet"))
           else Retry.Plain None).

Example Do_succeeds_on_third_attempt :
  Microapp.attempts_made (trace (Retry.Do 3 0 (flaky 2) 0 tt)) = 3%nat /\
  outcome (Retry.Do 3 0 (flaky 2) 0 tt) = Done (tt, None).
Proof. split; reflexivity. Qed.

Example Do_stops_at_once :
  Retry.Do 3 0 (fun _ s => mret (s, Retry.Stop (Some (errorString "bad password")))) 0 tt
  = ([], Done (tt, Some (errorString "bad password"))).
Proof. reflexivity. Qed.

Example Do_gives_up_with_last_error :
  Microapp.attempts_made (trace (Retry.Do 2 0 (flaky 5) 0 tt)) = 2%nat /\
  outcome (Retry.Do 2 0 (flaky 5) 0 tt) = Done (tt, Some (errorString "not yet")).
Proof. split; reflexivity. Qed.

(** The bootstrap of [Microapp.demo_answers]: refused once, then denied. *)
Example bootstrap_retries_once :
  Microapp.attempts_made
    (trace (Microapp.demo_initializeDB Microapp.plain_app Microapp.demo_answers)) = 2%nat /\
  outcome (Microapp.demo_initializeDB Microapp.plain_app Microapp.demo_answers) =
    Done (Microapp.mkApp "tenant" Microapp.plain_config (Some 2%nat)
            (Some Microapp.demo_server) [FStr "service" "tenant"],
          Some (errorString "Error 1045: Access denied for user")).
Proof. split; vm_compute; reflexivity. Qed.

Example end_line_of_a_server_error :
  line_level (Microapp.end_line (fun key => key) Microapp.plain_app Microapp.demo_request
                (Microapp.mkRecorder 500) 4) = ErrorLevel /\
  line_level (Microapp.end_line (fun key => key) Microapp.plain_app Microapp.demo_request
                (Microapp.mkRecorder 200) 4) = InfoLevel.
Proof. split; reflexivity. Qed.

End Checks.

(* ===================================================================== *)
(** * More on the execution context                                      *)
(* ===================================================================== *)

Module ContextProperties.

Import Zerolog Errors MicroappContext.

(** The field that one entry of a [map[string]string] becomes. *)
Definition strField (kv : string * string) : Field := FStr kv.1 kv.2.

Definition derivation_fields (d : Derivation) : list (string * string) :=
  match d with
  | DSubContext f => f
  | DSubContextWithToken _ f => f
  | DSubContextWithTokenAndUoW _ _ f => f
  | DSubContextWithUoW _ f => f
  end.

(** The same derivation called with an empty map. *)
Definition without_fields (d : Derivation) : Derivation :=
  match d with
  | DSubContext _ => DSubContext []
  | DSubContextWithToken t _ => DSubContextWithToken t []
  | DSubContextWithTokenAndUoW t u _ => DSubContextWithTokenAndUoW t u []
  | DSubContextWithUoW u _ => DSubContextWithUoW u []
  end.

(** The token and the unit of work that a derivation gives the child of [c]. *)
Definition derived_token (d : Derivation) (c : executionContextImpl) : option JwtToken :=
  match d with
  | DSubContextWithToken t _ => t
  | DSubContextWithTokenAndUoW t _ _ => t
  | _ => Token c
  end.

Definition derived_uow (d : Derivation) (c : executionContextImpl) : option UnitOfWorkRef :=
  match d with
  | DSubContextWithTokenAndUoW _ u _ => u
  | DSubContextWithUoW u _ => u
  | _ => UOW c
  end.

Definition mutation_fields (m : Mutation) : list (string * string) :=
  match m with
  | MAddLoggerStrFields f => f
  | MSetUOW _ => []
  end.

Definition step_fields (s : Step) : list (string * string) :=
  match s with
  | StepDerive _ d => derivation_fields d
  | StepMutate _ m => mutation_fields m
  end.

(** ** The loop over the fields *)

Lemma rangeStr_fields fields : forall base,
  rangeStr fields base = base ++ map strField fields.
Proof.
  unfold rangeStr. induction fields as [|kv fields IH]; intros base; simpl.
  - symmetry. apply app_nil_r.
  - rewrite IH. unfold Context_Str. rewrite <- app_assoc. reflexivity.
Qed.

Lemma lookupStr_fields_absent key fields :
  key ∉ fields.*1 -> lookupStr key (map strField fields) = None.
Proof.
  induction fields as [|[k v] fields IH]; intros Hk; simpl; [reflexivity|].
  rewrite IH by (intros H; apply Hk; simpl; right; exact H).
  destruct (String.eqb_spec k key) as [->|]; [|reflexivity].
  exfalso. apply Hk. simpl. left.
Qed.

(** With distinct keys, a key reads the value it was given. *)
Lemma lookupStr_fields_NoDup key fields :
  NoDup fields.*1 ->
  forall v, lookupStr key (map strField fields) = Some v <-> (key, v) ∈ fields.
Proof.
  induction fields as [|[k x] fields IH]; intros Hnd v.
  - simpl. split; [discriminate | intros H; inversion H].
  - rewrite fmap_cons in Hnd. apply NoDup_cons in Hnd as [Hk Hnd].
    specialize (IH Hnd). simpl in Hk. simpl lookupStr.
    destruct (lookupStr key (map strField fields)) as [y|] eqn:E.
    + assert (Hy : (key, y) ∈ fields) by (apply IH; reflexivity).
      assert (Hne : k <> key).
      { intros ->. apply Hk. apply list_elem_of_fmap. exists (key, y). split; [reflexivity | exact Hy]. }
      split.
      * intros H. right. apply IH. exact H.
      * intros [H | H]%elem_of_cons; [congruence | apply IH; exact H].
    + destruct (String.eqb_spec k key) as [->|Hne].
      * split.
        -- intros H. injection H as ->. left.
        -- intros [H | H]%elem_of_cons; [injection H as ->; reflexivity|].
           apply IH in H. discriminate.
      * split; [discriminate|].
        intros [H | H]%elem_of_cons; [congruence|].
        apply IH in H. discriminate.
Qed.


(** ** What a call leaves in the store, exactly *)

Lemma derive_struct d parent w pc :
  heap w !! parent = Some pc ->
  derive d parent w =
    Some (length (heap w),
          mkWorld (heap w ++
                   [mkExecutionContext (CorrelationID pc) (derived_uow d pc)
                      (derived_token d pc) (Action pc)
                      (logger pc ++ map strField (derivation_fields d))])
            (sink w)).
Proof.
  intros H.
  destruct d; simpl;
    unfold SubContext, SubContextWithToken, SubContextWithTokenAndUoW, SubContextWithUoW,
      mbind, M_bind, load, new; rewrite H;
    unfold Context_Logger, With; rewrite rangeStr_fields; reflexivity.
Qed.

Lemma derive_fault d parent w : heap w !! parent = None -> derive d parent w = None.
Proof.
  intros H.
  destruct d; simpl;
    unfold SubContext, SubContextWithToken, SubContextWithTokenAndUoW, SubContextWithUoW,
      mbind, M_bind, load; rewrite H; reflexivity.
Qed.

Lemma AddLoggerStrFields_struct context fields w c :
  heap w !! context = Some c ->
  AddLoggerStrFields context fields w =
    Some (tt, mkWorld (<[context :=
                          mkExecutionContext (CorrelationID c) (UOW c) (Token c) (Action c)
                            (logger c ++ map strField fields)]> (heap w))
                (sink w)).
Proof.
  intros H. unfold AddLoggerStrFields, mbind, M_bind, load, store. rewrite H. simpl.
  rewrite H. unfold Context_Logger, With. rewrite rangeStr_fields. reflexivity.
Qed.

Lemma SetUOW_struct context uow w c :
  heap w !! context = Some c ->
  SetUOW context uow w =
    Some (tt, mkWorld (<[context :=
                          mkExecutionContext (CorrelationID c) uow (Token c) (Action c)
                            (logger c)]> (heap w))
                (sink w)).
Proof.
  intros H. unfold SetUOW, mbind, M_bind, load, store. rewrite H. simpl.
  rewrite H. reflexivity.
Qed.

Lemma getters_at p w c :
  heap w !! p = Some c ->
  GetCorrelationID p w = Some (CorrelationID c, w) /\
  GetActionName p w = Some (Action c, w) /\
  GetDefaultLogger p w = Some (logger c, w) /\
  GetToken p w = Some (Token c, w) /\
  GetUOW p w = Some (UOW c, w).
Proof.
  intros H.
  unfold GetCorrelationID, GetActionName, GetDefaultLogger, GetToken, GetUOW,
    mbind, M_bind, load.
  rewrite H. repeat split.
Qed.

(** ** Derivations and in-place operations *)

(** A derivation gives the child exactly what its name says: the token and
    the unit of work passed in (nil included) replace the parent's, the
    others are the parent's, and the logger is the parent's with the new
    fields after the old ones. [SubContextWithAddlFieldsAndUoW] does what
    [SubContextWithUoW] does. *)
Theorem derivation_overrides_named_fields_only d context w c :
  heap w !! context = Some c ->
  (exists child w',
      derive d context w = Some (child, w') /\
      GetToken child w' = Some (derived_token d c, w') /\
      GetUOW child w' = Some (derived_uow d c, w') /\
      GetDefaultLogger child w' =
        Some (logger c ++ map strField (derivation_fields d), w')) /\
  (forall uow fields,
      SubContextWithAddlFieldsAndUoW context uow fields w =
      SubContextWithUoW context uow fields w).
Proof.
  intros H. split; [|reflexivity].
  eexists _, _. split; [apply derive_struct; exact H|].
  lazymatch goal with
  | |- GetToken ?p ?w' = _ /\ _ =>
      edestruct (getters_at p w') as (_ & _ & Hl & Ht & Hu);
        [simpl; apply list_lookup_middle; reflexivity|]
  end.
  rewrite Hl, Ht, Hu. repeat split.
Qed.

(** Deriving with fields is deriving with an empty map and then adding the
    fields to the child in place; on a pointer that is not allocated both
    fail. *)
Theorem derive_is_derive_empty_then_add d context w :
  (child ← derive (without_fields d) context;
   _ ← AddLoggerStrFields child (derivation_fields d);
   mret child) w
  = derive d context w.
Proof.
  destruct (heap w !! context) as [c|] eqn:H.
  - rewrite (derive_struct d context w c H).
    unfold mbind, M_bind, mret, M_ret.
    rewrite (derive_struct (without_fields d) context w c H). cbv beta iota.
    erewrite AddLoggerStrFields_struct
      by (simpl; apply list_lookup_middle; reflexivity).
    simpl.
    rewrite insert_app_r_alt by lia. rewrite Nat.sub_diag.
    destruct d; simpl; rewrite app_nil_r; reflexivity.
  - rewrite (derive_fault d context w H).
    unfold mbind, M_bind. rewrite (derive_fault (without_fields d) context w H).
    reflexivity.
Qed.

(** Adding fields twice is adding them once, in that order; adding an
    empty map changes nothing. *)
Theorem AddLoggerStrFields_accumulates context f1 f2 w :
  (_ ← AddLoggerStrFields context f1; AddLoggerStrFields context f2) w
  = AddLoggerStrFields context (f1 ++ f2) w
  /\ (is_Some (heap w !! context) -> AddLoggerStrFields context [] w = Some (tt, w)).
Proof.
  destruct (heap w !! context) as [c|] eqn:H.
  - split.
    + unfold mbind, M_bind.
      rewrite (AddLoggerStrFields_struct context f1 w c H). cbv beta iota.
      erewrite AddLoggerStrFields_struct
        by (simpl; apply list_lookup_insert_eq; eapply lookup_lt_Some; exact H).
      rewrite (AddLoggerStrFields_struct context (f1 ++ f2) w c H).
      simpl. rewrite list_insert_insert_eq, map_app, app_assoc. reflexivity.
    + intros _. rewrite (AddLoggerStrFields_struct context [] w c H).
      change (map strField []) with (@nil Field). rewrite app_nil_r.
      rewrite list_insert_id.
      2:{ transitivity (Some c); [exact H | destruct c; reflexivity]. }
      destruct w; reflexivity.
  - split.
    + unfold AddLoggerStrFields, mbind, M_bind, load. rewrite H. reflexivity.
    + intros [x Hx]. discriminate.
Qed.

(** [GetUOW] returns what the last [SetUOW] stored, nil included; [SetUOW]
    changes nothing else that the getters of the context show. *)
Theorem SetUOW_then_GetUOW context uow earlier w c :
  heap w !! context = Some c ->
  exists w',
    (_ ← SetUOW context earlier; SetUOW context uow) w = Some (tt, w') /\
    SetUOW context uow w = Some (tt, w') /\
    GetUOW context w' = Some (uow, w') /\
    GetCorrelationID context w' = Some (CorrelationID c, w') /\
    GetActionName context w' = Some (Action c, w') /\
    GetToken context w' = Some (Token c, w') /\
    GetDefaultLogger context w' = Some (logger c, w') /\
    sink w' = sink w /\
    forall other, other <> context -> heap w' !! other = heap w !! other.
Proof.
  intros H. eexists. split; [|split; [apply SetUOW_struct; exact H|]].
  - unfold mbind, M_bind. rewrite (SetUOW_struct context earlier w c H). cbv beta iota.
    erewrite SetUOW_struct
      by (simpl; apply list_lookup_insert_eq; eapply lookup_lt_Some; exact H).
    simpl. rewrite list_insert_insert_eq. reflexivity.
  - lazymatch goal with
    | |- GetUOW ?p ?w' = _ /\ _ =>
        edestruct (getters_at p w') as (Hc & Ha & Hl & Ht & Hu);
          [simpl; apply list_lookup_insert_eq; eapply lookup_lt_Some; exact H|]
    end.
    rewrite Hc, Ha, Hl, Ht, Hu. repeat split.
    intros other Hne. simpl. apply list_lookup_insert_ne. congruence.
Qed.


(** ** Invariants of a context tree *)

Section TreeInvariant.

(** A property of one context that survives every change of token and unit
    of work and every extension of the logger by fields that satisfy [Q]. *)
Variable P : executionContextImpl -> Prop.
Variable Q : list (string * string) -> bool.
Hypothesis Q_nil : Q [] = true.
Hypothesis P_extends : forall c uow tok fields,
  Q fields = true -> P c ->
  P (mkExecutionContext (CorrelationID c) uow tok (Action c)
       (logger c ++ map strField fields)).

Definition all_nodes (w : World) (nodes : list ptr) : Prop :=
  forall n, n ∈ nodes -> exists c, heap w !! n = Some c /\ P c.

Lemma grow_keeps steps :
  forall nodes w nodes' w',
    forallb (fun s => Q (step_fields s)) steps = true ->
    all_nodes w nodes ->
    grow steps nodes w = Some (nodes', w') ->
    all_nodes w' nodes'.
Proof.
  induction steps as [| [i d | i m] rest IH]; intros nodes w nodes' w' HQ Hinv Hg;
    simpl in Hg, HQ.
  - injection Hg as <- <-. exact Hinv.
  - apply andb_true_iff in HQ as [Hq HQ].
    destruct (nodes !! i) as [parent|] eqn:Hi; [|discriminate].
    apply bind_Some in Hg as (child & w1 & Hd & Hg).
    eapply IH; [exact HQ | | exact Hg].
    assert (Hin : parent ∈ nodes) by (eapply list_elem_of_lookup_2; eassumption).
    destruct (Hinv _ Hin) as (pc & Hpc & HP).
    rewrite (derive_struct d parent w pc Hpc) in Hd. injection Hd as <- <-.
    intros n [Hn | ->%list_elem_of_singleton]%elem_of_app; simpl.
    + destruct (Hinv _ Hn) as (c & Hc & HPc). exists c.
      rewrite lookup_app_l by (eapply lookup_lt_Some; eassumption). auto.
    + eexists. split; [apply list_lookup_middle; reflexivity|].
      apply P_extends; assumption.
  - apply andb_true_iff in HQ as [Hq HQ].
    destruct (nodes !! i) as [node|] eqn:Hi; [|discriminate].
    apply bind_Some in Hg as ([] & w1 & Hm & Hg).
    eapply IH; [exact HQ | | exact Hg].
    assert (Hin : node ∈ nodes) by (eapply list_elem_of_lookup_2; eassumption).
    destruct (Hinv _ Hin) as (c & Hc & HP).
    assert (Hw1 : exists c', P c' /\ heap w1 = <[node := c']> (heap w)).
    { destruct m as [f | uow]; simpl in Hm, Hq.
      - rewrite (AddLoggerStrFields_struct node f w c Hc) in Hm. injection Hm as <-.
        eexists. split; [|reflexivity]. apply P_extends; assumption.
      - rewrite (SetUOW_struct node uow w c Hc) in Hm. injection Hm as <-.
        eexists. split; [|reflexivity].
        rewrite <- (app_nil_r (logger c)). apply (P_extends c uow (Token c) []); assumption. }
    destruct Hw1 as (c' & HP' & Hh).
    intros n Hn. destruct (Hinv _ Hn) as (x & Hx & HPx). rewrite Hh.
    destruct (decide (node = n)) as [-> | Hne].
    + exists c'. rewrite list_lookup_insert_eq by (eapply lookup_lt_Some; eassumption). auto.
    + exists x. rewrite list_lookup_insert_ne by assumption. auto.
Qed.

End TreeInvariant.

(** No entry is keyed [correlationId] or [action]. *)
Definition plain_fields (fields : list (string * string)) : bool :=
  forallb (fun kv => negb (String.eqb kv.1 "correlationId") && negb (String.eqb kv.1 "action"))
    fields.

Lemma plain_fields_lookup fields :
  plain_fields fields = true ->
  lookupStr "correlationId" (map strField fields) = None /\
  lookupStr "action" (map strField fields) = None.
Proof.
  induction fields as [|[k v] fields IH]; intros H; simpl in *; [split; reflexivity|].
  apply andb_true_iff in H as [Hk H]. apply andb_true_iff in Hk as [H1 H2].
  destruct (IH H) as [-> ->].
  apply negb_true_iff in H1, H2. rewrite H1, H2. split; reflexivity.
Qed.

Lemma root_struct token correlationID action lg u w0 root w1 :
  NewExecutionContext token correlationID action lg u w0 = Some (root, w1) ->
  exists r,
    heap w1 !! root = Some r /\ lg `prefix_of` logger r /\
    lookupStr "correlationId" (logger r) = Some (CorrelationID r) /\
    lookupStr "action" (logger r) = Some (Action r).
Proof.
  intros H.
  destruct (NewExecutionContext_created token correlationID action lg u w0)
    as (r & _ & Hnew & _ & Hact & _ & _ & Hlog).
  rewrite Hnew in H. injection H as <- <-.
  exists r. split; [simpl; apply list_lookup_middle; reflexivity|].
  rewrite Hlog, Hact, !Microapp.lookupStr_app.
  split; [apply prefix_app_r; reflexivity|].
  destruct token; split; reflexivity.
Qed.

(** Fields are never removed: in a tree grown from a root, every node's
    logger starts with the logger the root was created with, which starts
    with the logger handed to [NewExecutionContext]. *)
Theorem loggers_extend_the_root_logger token correlationID action lg u w0 root w1 steps nodes w :
  NewExecutionContext token correlationID action lg u w0 = Some (root, w1) ->
  grow steps [root] w1 = Some (nodes, w) ->
  exists r,
    heap w1 !! root = Some r /\ lg `prefix_of` logger r /\
    forall n, n ∈ nodes ->
      exists c, heap w !! n = Some c /\ logger r `prefix_of` logger c.
Proof.
  intros Hnew Hg.
  destruct (root_struct _ _ _ _ _ _ _ _ Hnew) as (r & Hr & Hlg & _).
  exists r. split; [exact Hr|]. split; [exact Hlg|].
  eapply (grow_keeps (fun c => logger r `prefix_of` logger c) (fun _ => true));
    [| | | exact Hg].
  - intros c uow tok fields _ Hc. simpl. etrans; [exact Hc|]. apply prefix_app_r. reflexivity.
  - clear. induction steps; [reflexivity | assumption].
  - intros n ->%list_elem_of_singleton. exists r. split; [exact Hr | reflexivity].
Qed.

(** As long as no map handed to a derivation or to [AddLoggerStrFields] has
    an entry keyed [correlationId] or [action], the correlation id and the
    action that a node's log lines show are the ones its getters return. *)
Theorem logged_correlation_id_is_the_context_s token correlationID action lg u w0 root w1
    steps nodes w :
  NewExecutionContext token correlationID action lg u w0 = Some (root, w1) ->
  forallb (fun s => plain_fields (step_fields s)) steps = true ->
  grow steps [root] w1 = Some (nodes, w) ->
  forall n, n ∈ nodes ->
    exists c,
      heap w !! n = Some c /\
      lookupStr "correlationId" (logger c) = Some (CorrelationID c) /\
      lookupStr "action" (logger c) = Some (Action c).
Proof.
  intros Hnew Hplain Hg.
  destruct (root_struct _ _ _ _ _ _ _ _ Hnew) as (r & Hr & _ & Hc & Ha).
  eapply (grow_keeps
            (fun c => lookupStr "correlationId" (logger c) = Some (CorrelationID c) /\
                      lookupStr "action" (logger c) = Some (Action c))
            plain_fields); [| exact Hplain | | exact Hg].
  - intros c uow tok fields Hq [H1 H2]. simpl.
    destruct (plain_fields_lookup fields Hq) as [E1 E2].
    rewrite !Microapp.lookupStr_app, E1, E2. split; assumption.
  - intros n ->%list_elem_of_singleton. exists r. auto.
Qed.

(** A field keyed [correlationId] shadows the id in the log: the child's
    lines show the value of that entry, while [GetCorrelationID] still
    returns the parent's id. *)
Theorem correlation_id_field_shadows_in_the_log d context w c v :
  heap w !! context = Some c ->
  NoDup (derivation_fields d).*1 ->
  ("correlationId", v) ∈ derivation_fields d ->
  exists child w' cc,
    derive d context w = Some (child, w') /\
    heap w' !! child = Some cc /\
    lookupStr "correlationId" (logger cc) = Some v /\
    GetCorrelationID child w' = Some (CorrelationID c, w').
Proof.
  intros H Hnd Hin.
  rewrite (derive_struct d context w c H).
  eexists _, _, _. split; [reflexivity|].
  split; [simpl; apply list_lookup_middle; reflexivity|].
  split.
  - simpl. rewrite Microapp.lookupStr_app.
    apply (lookupStr_fields_NoDup "correlationId" _ Hnd) in Hin. rewrite Hin. reflexivity.
  - unfold GetCorrelationID, mbind, M_bind, load. simpl.
    rewrite list_lookup_middle by reflexivity. reflexivity.
Qed.

(** ** Logging an error *)

Section LoggingProperties.

Variables EventTypeValidationErr EventCodeInvalidData MessageInvalidInputData : string.
Variables EventTypeUnexpectedErr EventCodeUnknown MessageParseError : string.
Variables EventTypeSuccess EventCodeActionComplete : string.

Abbreviation LogError :=
  (MicroappContext.LogError EventTypeValidationErr EventCodeInvalidData
     MessageInvalidInputData EventTypeUnexpectedErr EventCodeUnknown).
Abbreviation LogJSONParseError :=
  (MicroappContext.LogJSONParseError EventTypeValidationErr EventCodeInvalidData
     MessageInvalidInputData EventTypeUnexpectedErr EventCodeUnknown MessageParseError).
Abbreviation LoggerEventActionCompletion :=
  (MicroappContext.LoggerEventActionCompletion EventTypeSuccess EventCodeActionComplete).

(** The level, event type, event code and message that [LogError] chooses. *)
Definition level_of (err : option error) : Level :=
  match err with
  | Some (ValidationError _) => InfoLevel
  | Some (HTTPResourceNotFound _ _ _ _) => DebugLevel
  | _ => ErrorLevel
  end.

Definition event_type_of (err : option error) : string :=
  match err with
  | Some (ValidationError _) => EventTypeValidationErr
  | _ => EventTypeUnexpectedErr
  end.

Definition event_code_of (err : option error) : string :=
  match err with
  | Some (ValidationError _) => EventCodeInvalidData
  | Some (HTTPResourceNotFound _ ErrorKey _ _) => ErrorKey
  | Some (APIClientError _ errorCode _ _ _ _) => errorCode
  | Some (UnexpectedError _ errorCode _) => errorCode
  | _ => EventCodeUnknown
  end.

Definition message_of (err : option error) (errorMessage : string) : string :=
  match err with
  | Some (ValidationError _) => MessageInvalidInputData
  | _ => errorMessage
  end.

(** The fields that [LogError] puts after the event type and code. *)
Definition payload_of (err : option error) : list Field :=
  match err with
  | Some e =>
      FErr (Errors.Error e) ::
      match e with
      | HTTPResourceNotFound _ _ ResourceName ResourceValue =>
          [FStr "resourceName" ResourceName; FStr "resourceValue" ResourceValue]
      | APIClientError _ _ stackTrace apiURL body code =>
          [FStr "stack" stackTrace; FStr "apiURL" apiURL]
          ++ match body with Some b => [FStr "responseBody" b] | None => [] end
          ++ match code with Some n => [FInt "responseStatusCode" n] | None => [] end
      | UnexpectedError _ _ stackTrace => [FStr "stack" stackTrace]
      | _ => []
      end
  | None => []
  end.

Lemma LogError_line context err errorMessage w c :
  heap w !! context = Some c ->
  LogError context err errorMessage w =
    Some (tt, mkWorld (heap w)
                (sink w ++
                 [mkLine (level_of err)
                    (logger c ++
                     [FStr "eventType" (event_type_of err);
                      FStr "eventCode" (event_code_of err)] ++ payload_of err)
                    (message_of err errorMessage)])).
Proof.
  intros Hc.
  destruct err as [[t | t k n v | t code st url body status | t code st | | t] |];
    unfold MicroappContext.LogError, MicroappContext.Logger, mbind, M_bind, load, write,
      mret, M_ret; rewrite Hc;
    unfold Event_Msg, Event_Err, Event_Str, Event_Int, Event_add, Info, Debug,
      Zerolog.Error, newEvent, Context_Logger, Context_Str, With; simpl;
    try (destruct body, status; simpl);
    rewrite <- ?app_assoc; reflexivity.
Qed.

(** Every call of [LogError] on an allocated context, whatever the error
    (nil included), writes exactly one line and changes no context. The
    line is at debug level for a resource not found, at info level for a
    validation error and at error level otherwise; it starts with the
    context's fields; its message is the caller's unless the error is a
    validation error. *)
Theorem LogError_writes_one_line context err errorMessage w c :
  heap w !! context = Some c ->
  exists line,
    LogError context err errorMessage w
      = Some (tt, mkWorld (heap w) (sink w ++ [line])) /\
    line_level line = level_of err /\
    line_message line = message_of err errorMessage /\
    logger c `prefix_of` line_fields line /\
    (forall e, err = Some e -> FErr (Errors.Error e) ∈ line_fields line).
Proof.
  intros Hc. eexists. split; [apply LogError_line; exact Hc|].
  simpl. repeat split.
  - eexists. reflexivity.
  - intros e ->. simpl. apply elem_of_app. right.
    apply elem_of_cons. right. apply elem_of_cons. right. apply elem_of_cons. left.
    reflexivity.
Qed.

(** The event type and event code that a reader finds on the line are the
    ones [LogError] chose for the error, and the resource, stack and URL
    fields are the error's, whatever fields of the same names the context's
    logger already carries. Among the fields that [LogError] adds to the
    context's, a response status is there exactly when the error carries
    one, and it is that one. *)
Theorem LogError_fields_win_over_context_fields context err errorMessage w c :
  heap w !! context = Some c ->
  exists line added,
    LogError context err errorMessage w
      = Some (tt, mkWorld (heap w) (sink w ++ [line])) /\
    line_fields line = logger c ++ added /\
    lookupStr "eventType" (line_fields line) = Some (event_type_of err) /\
    lookupStr "eventCode" (line_fields line) = Some (event_code_of err) /\
    (forall t k name value, err = Some (HTTPResourceNotFound t k name value) ->
       lookupStr "resourceName" (line_fields line) = Some name /\
       lookupStr "resourceValue" (line_fields line) = Some value) /\
    (forall t code st url body status,
       err = Some (APIClientError t code st url body status) ->
       lookupStr "stack" (line_fields line) = Some st /\
       lookupStr "apiURL" (line_fields line) = Some url /\
       (forall b, body = Some b -> lookupStr "responseBody" (line_fields line) = Some b) /\
       (forall n, FInt "responseStatusCode" n ∈ added <-> status = Some n)) /\
    (forall t code st, err = Some (UnexpectedError t code st) ->
       lookupStr "stack" (line_fields line) = Some st) /\
    (forall n, FInt "responseStatusCode" n ∈ added ->
       exists t code st url body, err = Some (APIClientError t code st url body (Some n))).
Proof.
  intros Hc. eexists _, _. split; [apply LogError_line; exact Hc|].
  split; [reflexivity|].
  simpl line_fields. rewrite !Microapp.lookupStr_app.
  split; [|split; [|split; [|split; [|split]]]].
  - destruct err as [[t | t k n v | t code st url [b|] [z|] | t code st | | t] |];
      reflexivity.
  - destruct err as [[t | t k n v | t code st url [b|] [z|] | t code st | | t] |];
      reflexivity.
  - intros t k name value ->. split; reflexivity.
  - intros t code st url body status ->.
    split; [destruct body, status; reflexivity|].
    split; [destruct body, status; reflexivity|].
    split.
    + intros b ->. destruct status; reflexivity.
    + intros n. simpl. destruct body as [b|], status as [z|]; simpl; split; intros H;
        repeat match goal with
               | H : _ ∈ _ :: _ |- _ => apply elem_of_cons in H as [H | H]
               | H : _ ∈ [] |- _ => inversion H
               end; try discriminate; try congruence.
      * injection H as <-. do 6 (apply elem_of_cons; right). apply elem_of_cons. left. reflexivity.
      * injection H as <-. do 5 (apply elem_of_cons; right). apply elem_of_cons. left. reflexivity.
  - intros t code st ->. reflexivity.
  - intros n H.
    destruct err as [[t | t k m v | t code st url [b|] [z|] | t code st | | t] |];
      simpl in H;
      repeat match goal with
             | H : _ ∈ _ :: _ |- _ => apply elem_of_cons in H as [H | H]
             | H : _ ∈ [] |- _ => inversion H
             end; try discriminate;
      injection H as <-; eauto 10.
Qed.

(** [LogJSONParseError] writes one line with the parse-error message, except
    for a validation error, whose line carries the invalid-input message
    and no trace of the parse-error message. *)
Theorem LogJSONParseError_message context err w c :
  heap w !! context = Some c ->
  exists line,
    LogJSONParseError context err w = Some (tt, mkWorld (heap w) (sink w ++ [line])) /\
    line_level line = level_of err /\
    (forall t, err = Some (ValidationError t) ->
       line = mkLine InfoLevel
                (logger c ++ [FStr "eventType" EventTypeValidationErr;
                              FStr "eventCode" EventCodeInvalidData; FErr t])
                MessageInvalidInputData) /\
    ((forall t, err <> Some (ValidationError t)) -> line_message line = MessageParseError).
Proof.
  intros Hc. eexists. split; [apply LogError_line; exact Hc|].
  split; [reflexivity|]. split.
  - intros t ->. reflexivity.
  - intros Hne. destruct err as [[t | | | | |] |]; try reflexivity.
    exfalso. apply (Hne t). reflexivity.
Qed.

(** [Logger] and [LoggerEventActionCompletion] only read: they write no
    line and change no context. What they return carries the context's
    fields first, and read by key it shows the event type and code asked
    for (success and action complete for the latter, at info level). On a
    pointer that is not allocated both fail. *)
Theorem Logger_and_completion_event_only_read context eventType eventCode w :
  match heap w !! context with
  | Some c =>
      exists l ev,
        MicroappContext.Logger context eventType eventCode w = Some (l, w) /\
        logger c `prefix_of` l /\
        lookupStr "eventType" l = Some eventType /\
        lookupStr "eventCode" l = Some eventCode /\
        LoggerEventActionCompletion context w = Some (ev, w) /\
        ev_level ev = InfoLevel /\
        logger c `prefix_of` ev_fields ev /\
        lookupStr "eventType" (ev_fields ev) = Some EventTypeSuccess /\
        lookupStr "eventCode" (ev_fields ev) = Some EventCodeActionComplete
  | None =>
      MicroappContext.Logger context eventType eventCode w = None /\
      LoggerEventActionCompletion context w = None
  end.
Proof.
  destruct (heap w !! context) as [c|] eqn:Hc;
    unfold MicroappContext.Logger, MicroappContext.LoggerEventActionCompletion,
      mbind, M_bind, load, mret, M_ret; rewrite Hc; [|split; reflexivity].
  unfold Event_Str, Event_add, Info, newEvent, Context_Logger, Context_Str, With.
  eexists _, _. split; [reflexivity|].
  do 3 (split; [rewrite <- ?app_assoc, ?Microapp.lookupStr_app;
                first [reflexivity | eexists; reflexivity]|]).
  split; [reflexivity|]. cbn [ev_fields ev_level].
  rewrite <- ?app_assoc, ?Microapp.lookupStr_app.
  repeat split; first [reflexivity | eexists; reflexivity].
Qed.

End LoggingProperties.

(** ** Concrete runs *)

Definition one_root : World := mkWorld [demo_root] [].

Lemma derivation_overrides_named_fields_only_witness :
  exists child w',
    derive (DSubContextWithToken None [("k", "v")]) 0%nat one_root = Some (child, w') /\
    GetToken child w' = Some (None, w') /\
    GetUOW child w' = Some (None, w') /\
    GetDefaultLogger child w' =
      Some ([FStr "action" "tenant.get"; FStr "correlationId" "req-1"; FStr "k" "v"], w').
Proof.
  exact (proj1 (derivation_overrides_named_fields_only
                  (DSubContextWithToken None [("k", "v")]) 0%nat one_root demo_root eq_refl)).
Defined.

Lemma SetUOW_then_GetUOW_witness :
  exists w',
    SetUOW 0%nat (Some 4%nat) one_root = Some (tt, w') /\
    GetUOW 0%nat w' = Some (Some 4%nat, w').
Proof.
  destruct (SetUOW_then_GetUOW 0%nat (Some 4%nat) None one_root demo_root eq_refl)
    as (w' & _ & Hset & Hget & _).
  exists w'. split; [exact Hset | exact Hget].
Defined.


Lemma loggers_extend_the_root_logger_witness :
  exists r,
    heap one_root !! 0%nat = Some r /\ [] `prefix_of` logger r /\
    forall n, n ∈ [0; 1; 2]%nat ->
      exists c, heap demo_world !! n = Some c /\ logger r `prefix_of` logger c.
Proof.
  apply (loggers_extend_the_root_logger None "req-1" "tenant.get" [] Uuid.Nil
           (mkWorld [] []) 0%nat one_root demo_steps [0; 1; 2]%nat demo_world).
  - reflexivity.
  - reflexivity.
Defined.

Lemma logged_correlation_id_is_the_context_s_witness :
  exists c,
    heap demo_world !! 2%nat = Some c /\
    lookupStr "correlationId" (logger c) = Some (CorrelationID c) /\
    lookupStr "action" (logger c) = Some (Action c).
Proof.
  apply (logged_correlation_id_is_the_context_s None "req-1" "tenant.get" [] Uuid.Nil
           (mkWorld [] []) 0%nat one_root demo_steps [0; 1; 2]%nat demo_world).
  - reflexivity.
  - reflexivity.
  - reflexivity.
  - do 2 (apply elem_of_cons; right). apply elem_of_cons. left. reflexivity.
Defined.

Lemma correlation_id_field_shadows_in_the_log_witness :
  exists child w' cc,
    derive (DSubContext [("correlationId", "other")]) 0%nat one_root = Some (child, w') /\
    heap w' !! child = Some cc /\
    lookupStr "correlationId" (logger cc) = Some "other" /\
    GetCorrelationID child w' = Some ("req-1", w').
Proof.
  apply (correlation_id_field_shadows_in_the_log
           (DSubContext [("correlationId", "other")]) 0%nat one_root demo_root "other").
  - reflexivity.
  - apply (bool_decide_unpack _). vm_compute. reflexivity.
  - apply list_elem_of_singleton. reflexivity.
Defined.

Lemma LogError_writes_one_line_witness :
  exists line,
    LogError "validation error" "invalid data" "invalid input" "unexpected" "unknown"
      0%nat (Some (HTTPResourceNotFound "tenant not found" "Key_NotFound" "tenant" "7"))
      "Unable to find resource" one_root
    = Some (tt, mkWorld [demo_root] [line]) /\
    line_level line = DebugLevel /\
    line_message line = "Unable to find resource".
Proof.
  destruct (LogError_writes_one_line
              "validation error" "invalid data" "invalid input" "unexpected" "unknown"
              0%nat (Some (HTTPResourceNotFound "tenant not found" "Key_NotFound" "tenant" "7"))
              "Unable to find resource" one_root demo_root eq_refl)
    as (line & Hrun & Hlevel & Hmsg & _).
  exists line. split; [exact Hrun|]. split; [exact Hlevel | exact Hmsg].
Defined.

Lemma LogError_fields_win_over_context_fields_witness :
  exists line,
    LogError "validation error" "invalid data" "invalid input" "unexpected" "unknown"
      0%nat (Some (HTTPResourceNotFound "tenant not found" "Key_NotFound" "tenant" "7"))
      "Unable to find resource"
      (mkWorld [mkExecutionContext "req-1" None None "a" [FStr "eventCode" "mine"]] [])
    = Some (tt, mkWorld [mkExecutionContext "req-1" None None "a" [FStr "eventCode" "mine"]]
                  [line]) /\
    lookupStr "eventCode" (line_fields line) = Some "Key_NotFound" /\
    lookupStr "resourceName" (line_fields line) = Some "tenant".
Proof.
  destruct (LogError_fields_win_over_context_fields
              "validation error" "invalid data" "invalid input" "unexpected" "unknown"
              0%nat (Some (HTTPResourceNotFound "tenant not found" "Key_NotFound" "tenant" "7"))
              "Unable to find resource"
              (mkWorld [mkExecutionContext "req-1" None None "a" [FStr "eventCode" "mine"]] [])
              (mkExecutionContext "req-1" None None "a" [FStr "eventCode" "mine"]) eq_refl)
    as (line & added & Hrun & _ & _ & Hcode & Hres & _).
  exists line. split; [exact Hrun|]. split; [exact Hcode|].
  exact (proj1 (Hres _ _ _ _ eq_refl)).
Defined.

Lemma LogJSONParseError_message_witness :
  exists line,
    LogJSONParseError "validation error" "invalid data" "invalid input" "unexpected"
      "unknown" "parse error" 0%nat (Some (ValidationError "name is required")) one_root
    = Some (tt, mkWorld [demo_root] [line]) /\
    line_message line = "invalid input".
Proof.
  destruct (LogJSONParseError_message
              "validation error" "invalid data" "invalid input" "unexpected" "unknown"
              "parse error" 0%nat (Some (ValidationError "name is required")) one_root
              demo_root eq_refl)
    as (line & Hrun & _ & Hval & _).
  exists line. split; [exact Hrun|]. rewrite (Hval _ eq_refl). reflexivity.
Defined.

End ContextProperties.

(* ===================================================================== *)
(** * Package [net/textproto] of the Go standard library (the part used) *)
(* ===================================================================== *)

Module Textproto.

(** [validHeaderFieldByte]: the bytes of an HTTP token. *)
Definition validHeaderFieldByte (c : ascii) : bool :=
  let n := N_of_ascii c in
  (((48 <=? n) && (n <=? 57)) || ((65 <=? n) && (n <=? 90)) || ((97 <=? n) && (n <=? 122))
   || (n =? 33) || ((35 <=? n) && (n <=? 39)) || (n =? 42) || (n =? 43) || (n =? 45)
   || (n =? 46) || ((94 <=? n) && (n <=? 96)) || (n =? 124) || (n =? 126))%N.

Fixpoint validKey (s : string) : bool :=
  match s with
  | EmptyString => true
  | String c r => validHeaderFieldByte c && validKey r
  end.

(** Upper case for the first letter and for a letter after a dash, lower
    case for the other letters. *)
Fixpoint canonical (upper : bool) (s : string) : string :=
  match s with
  | EmptyString => EmptyString
  | String c r =>
      let n := N_of_ascii c in
      let c' :=
        if (upper && (97 <=? n) && (n <=? 122))%N then ascii_of_N (n - 32)
        else if (negb upper && (65 <=? n) && (n <=? 90))%N then ascii_of_N (n + 32)
        else c in
      String c' (canonical (Ascii.eqb c' "-") r)
  end.

(** [textproto.CanonicalMIMEHeaderKey]: a key with a byte that is not of a
    token is returned as it is. *)
Definition CanonicalMIMEHeaderKey (s : string) : string :=
  if validKey s then canonical true s else s.

End Textproto.

(* ===================================================================== *)
(** * Package [strconv] of the Go standard library (the part used)       *)
(* ===================================================================== *)

Module Strconv.

Definition isDigit (c : ascii) : bool :=
  let n := N_of_ascii c in ((48 <=? n) && (n <=? 57))%N.

(** The value of a string of decimal digits, [None] at any other byte. *)
Fixpoint digits (s : string) (acc : Z) : option Z :=
  match s with
  | EmptyString => Some acc
  | String c r =>
      if isDigit c then digits r (acc * 10 + Z.of_N (N_of_ascii c - 48)) else None
  end.

(** [strconv.Atoi] on a 64-bit platform: an optional sign and at least one
    decimal digit, the value within [int]; [None] is a non-nil error. *)
Definition Atoi (s : string) : option Z :=
  match s with
  | EmptyString => None
  | String c r =>
      let neg := Ascii.eqb c "-" in
      let body := if Ascii.eqb c "-" || Ascii.eqb c "+" then r else s in
      match body with
      | EmptyString => None
      | _ =>
          match digits body 0 with
          | Some n =>
              let v := if neg then - n else n in
              if (- 2 ^ 63 <=? v) && (v <=? 2 ^ 63 - 1) then Some v else None
          | None => None
          end
      end
  end.

End Strconv.

(* ===================================================================== *)
(** * More of the application                                            *)
(* ===================================================================== *)

Module AppLifecycle.

Import Zerolog Errors Runtime Microapp.

Notation "x |> f" := (f x) (at level 45, left associativity, only parsing).

(** [Initialize], from the resolution of the port on: the router and the
    registration of the routes, which come first, are outside the model.
    [IsSet] is the lookup [Config.IsSet]. *)
Definition Initialize (IsSet : string -> bool) (app : App) : Eff App :=
  let logger := applog app in
  let apiPort := "80" in
  apiPort ←
    (if IsSet "API_PORT" then
       let port := GetString (AppConfig app) "API_PORT" in
       match Strconv.Atoi port with
       | None =>
           _ ← log (Zerolog.Error logger
                    |> Event_Msg ("API port needs to be a number. " +:+ port
                                  +:+ " is not a number."));
           mret apiPort
       | Some _ => mret port
       end
     else mret apiPort);
  _ ← log (Debug logger |> Event_Str "appname" (Name app)
           |> Event_Msg ("Api server will start on port: " +:+ apiPort));
  mret (mkApp (Name app) (AppConfig app) (DB app)
          (Some (mkServer ("0.0.0.0:" +:+ apiPort)
                   (Duration_mul Second (GetInt (AppConfig app) "HTTP_WRITE_TIMEOUT"))
                   (Duration_mul Second (GetInt (AppConfig app) "HTTP_READ_TIMEOUT"))
                   (Duration_mul Second (GetInt (AppConfig app) "HTTP_IDLE_TIMEOUT"))))
          (applog app)).

(** What the migration library answers: the errors, nil or not, of opening
    the migrations directory, of [sql.Open], of [mysql.WithInstance], of
    [migrate.NewWithInstance] and of [Up]. *)
Record Migration : Type := mkMigration
  { fileOpen : option error;
    migrateOpen : option error;
    withInstance : option error;
    newWithInstance : option error;
    up : option error }.

Definition fatal_if (err : option error) (logger : Zerolog.Logger) (msg : string) : Eff unit :=
  match err with
  | Some _ => fatal (Fatal logger |> Event_Err err |> Event_Msg msg)
  | None => mret tt
  end.

(** [MigrateDB]. Of the calls it makes, the log lines and [sql.Open] are
    recorded. *)
Definition MigrateDB (app : App) (m : Migration) : Eff unit :=
  let logger := applog app in
  _ ← log (Debug logger |> Event_Msg "DB Migration Begin...");
  match fileOpen m with
  | Some _ =>
      _ ← log (Info logger |> Event_Err (fileOpen m)
               |> Event_Msg "No migrations directory found, skipping migrations!");
      log (Info logger |> Event_Msg "DB Migration End!")
  | None =>
      _ ← call (SqlOpen "mysql" (GetConnectionString app));
      _ ← fatal_if (migrateOpen m) logger
            "Unable to open DB connection for migration, exiting the application!";
      _ ← fatal_if (withInstance m) logger
            "Unable to prepare DB instance for migration, exiting the application!";
      _ ← fatal_if (newWithInstance m) logger
            "Unable to initialize DB instance for migration, exiting the application!";
      _ ← match up m with
          | Some e =>
              if String.eqb (Errors.Error e) "no change" then
                log (Info logger |> Event_Msg "DB already in latest state.")
              else
                fatal (Fatal logger |> Event_Err (up m)
                       |> Event_Msg "Failed to migrate DB, exiting the application!")
          | None => log (Debug logger |> Event_Msg "Successfully upgraded DB")
          end;
      log (Info logger |> Event_Msg "DB Migration End!")
  end.

Definition isLog (c : Call) : bool :=
  match c with Log _ => true | _ => false end.

(** ** Stop and Start *)

(** [Stop] never exits the process and writes no line. It returns exactly
    when the server is there and either the database is not required, or
    the database object is there and the handle was obtained without error
    or is not nil; in every other case it panics on a nil pointer. *)
Theorem Stop_returns_or_panics app handle :
  outcome (Stop app handle) =
    (if bool_decide (is_Some (server app))
        && (negb (GetBool (AppConfig app) "DB_REQUIRED")
            || (bool_decide (is_Some (DB app))
                && (bool_decide (handle.2 = None) || bool_decide (is_Some handle.1))))
     then Done tt else Panic) /\
  existsb isLog (trace (Stop app handle)) = false /\
  (length (trace (Stop app handle)) <= 3)%nat.
Proof.
  destruct app as [name cfg db srv lg], handle as [sqlDB err]. unfold Stop. simpl.
  destruct srv, (GetBool cfg "DB_REQUIRED"), db, err, sqlDB; simpl;
    repeat split; lia.
Qed.

(** [Start] before [Initialize] panics at the listener; with TLS enabled
    the certificate path is checked before the key path, each with its own
    fatal line and before the server is touched; TLS is enabled by the
    exact value "true" only. *)
Theorem Start_checks_in_order app listenErr :
  (GetString (AppConfig app) "ENABLE_TLS" <> "true" ->
     (server app = None -> Start app listenErr = ([ListenAndServe], Panic)) /\
     (is_Some (server app) -> Start app None = ([ListenAndServe], Done tt))) /\
  (GetString (AppConfig app) "ENABLE_TLS" = "true" ->
     (GetString (AppConfig app) "TLS_CRT" = "" ->
        Start app listenErr =
          ([Log (mkLine FatalLevel (applog app)
                   "TLS_CRT is not defined or empty, exiting the application!")],
           Exit 1)) /\
     (GetString (AppConfig app) "TLS_CRT" <> "" ->
      GetString (AppConfig app) "TLS_KEY" = "" ->
        Start app listenErr =
          ([Log (mkLine FatalLevel (applog app)
                   "TLS_KEY is not defined or empty, exiting the application!")],
           Exit 1)) /\
     (GetString (AppConfig app) "TLS_CRT" <> "" ->
      GetString (AppConfig app) "TLS_KEY" <> "" ->
        (server app = None ->
           Start app listenErr =
             ([ListenAndServeTLS (GetString (AppConfig app) "TLS_CRT")
                 (GetString (AppConfig app) "TLS_KEY")], Panic)) /\
        (is_Some (server app) ->
           Start app None =
             ([ListenAndServeTLS (GetString (AppConfig app) "TLS_CRT")
                 (GetString (AppConfig app) "TLS_KEY")], Done tt)))).
Proof.
  unfold Start, StartSecure. split.
  - intros Htls%String.eqb_neq. rewrite Htls. split.
    + intros ->. reflexivity.
    + intros [srv ->]. reflexivity.
  - intros ->. simpl. split; [|split].
    + intros ->. reflexivity.
    + intros Hc%String.eqb_neq ->. rewrite Hc. reflexivity.
    + intros Hc%String.eqb_neq Hk%String.eqb_neq. rewrite Hc, Hk. split.
      * intros ->. reflexivity.
      * intros [srv ->]. reflexivity.
Qed.

(** ** Initialize *)

(** The port that [Initialize] settles on. *)
Definition resolved_port (IsSet : string -> bool) (app : App) : string :=
  if IsSet "API_PORT" && bool_decide (is_Some (Strconv.Atoi (GetString (AppConfig app) "API_PORT")))
  then GetString (AppConfig app) "API_PORT" else "80".

(** The port is set and does not read as an integer. *)
Definition bad_port (IsSet : string -> bool) (app : App) : bool :=
  IsSet "API_PORT"
  && negb (bool_decide (is_Some (Strconv.Atoi (GetString (AppConfig app) "API_PORT")))).

(** [Initialize] always returns. The server listens on all interfaces at
    the configured port, taken as written, when the port is set and reads
    as an integer, and at port 80 otherwise. A port that is set but does
    not read as an integer costs one line, at error level, whose message
    names the port as configured, and nothing else. The last line is the
    debug line that names the port settled on. The timeouts are the
    configured seconds; name, configuration, database and logger of the
    application are kept. *)
Theorem Initialize_resolves_the_port IsSet app :
  Initialize IsSet app =
    ((if bad_port IsSet app
      then [Log (mkLine ErrorLevel (applog app)
                   ("API port needs to be a number. "
                    +:+ GetString (AppConfig app) "API_PORT" +:+ " is not a number."))]
      else [])
     ++ [Log (mkLine DebugLevel (applog app ++ [FStr "appname" (Name app)])
                ("Api server will start on port: " +:+ resolved_port IsSet app))],
     Done (mkApp (Name app) (AppConfig app) (DB app)
             (Some (mkServer ("0.0.0.0:" +:+ resolved_port IsSet app)
                      (Duration_mul Second (GetInt (AppConfig app) "HTTP_WRITE_TIMEOUT"))
                      (Duration_mul Second (GetInt (AppConfig app) "HTTP_READ_TIMEOUT"))
                      (Duration_mul Second (GetInt (AppConfig app) "HTTP_IDLE_TIMEOUT"))))
             (applog app)))
  /\ (resolved_port IsSet app = GetString (AppConfig app) "API_PORT" \/
      resolved_port IsSet app = "80")
  /\ (IsSet "API_PORT" = true ->
      forall n, Strconv.Atoi (GetString (AppConfig app) "API_PORT") = Some n ->
        resolved_port IsSet app = GetString (AppConfig app) "API_PORT" /\
        bad_port IsSet app = false)
  /\ (IsSet "API_PORT" = true ->
      Strconv.Atoi (GetString (AppConfig app) "API_PORT") = None ->
        resolved_port IsSet app = "80" /\ bad_port IsSet app = true)
  /\ (IsSet "API_PORT" = false ->
      resolved_port IsSet app = "80" /\ bad_port IsSet app = false).
Proof.
  unfold Initialize, resolved_port, bad_port.
  destruct (IsSet "API_PORT"); simpl;
    [destruct (Strconv.Atoi (GetString (AppConfig app) "API_PORT")) as [n|]; simpl|];
    (split; [reflexivity|]); (split; [auto|]);
    (split; [intros; try discriminate; split; reflexivity|]);
    (split; [intros; try discriminate; split; reflexivity|]);
    intros; try discriminate; split; reflexivity.
Qed.

(** ** MigrateDB *)

Definition setup_ok (m : Migration) : bool :=
  bool_decide (migrateOpen m = None) && bool_decide (withInstance m = None)
  && bool_decide (newWithInstance m = None).

Definition up_ok (m : Migration) : bool :=
  match up m with
  | Some e => String.eqb (Errors.Error e) "no change"
  | None => true
  end.

(** [MigrateDB] starts with the debug line "DB Migration Begin...". Without
    a migrations directory it opens no database connection and returns.
    With one, it returns exactly when the three set-up calls succeed and
    [Up] returns nil or an error whose whole text is "no change"; otherwise
    the process exits and the last line is the fatal one. Whenever it
    returns, the last line is the info line "DB Migration End!". *)
Theorem MigrateDB_returns_or_exits app m :
  (exists rest,
      trace (MigrateDB app m) =
        Log (mkLine DebugLevel (applog app) "DB Migration Begin...") :: rest) /\
  (is_Some (fileOpen m) ->
     outcome (MigrateDB app m) = Done tt /\
     existsb isSqlOpen (trace (MigrateDB app m)) = false /\
     length (trace (MigrateDB app m)) = 3%nat) /\
  (fileOpen m = None ->
     outcome (MigrateDB app m) = (if setup_ok m && up_ok m then Done tt else Exit 1) /\
     attempts_made (trace (MigrateDB app m)) = 1%nat) /\
  (outcome (MigrateDB app m) = Done tt ->
     last (trace (MigrateDB app m)) =
       Some (Log (mkLine InfoLevel (applog app) "DB Migration End!"))) /\
  (outcome (MigrateDB app m) <> Done tt ->
     exists l, last (trace (MigrateDB app m)) = Some (Log l) /\ line_level l = FatalLevel).
Proof.
  destruct m as [fo mo wi nw u]. unfold MigrateDB, setup_ok, up_ok, fatal_if. simpl.
  destruct fo as [e0|]; simpl.
  - split; [eexists; reflexivity|]. split; [intros _; repeat split|].
    split; [discriminate|]. split; [reflexivity|]. intros H. exfalso. apply H. reflexivity.
  - destruct mo as [e1|]; [|destruct wi as [e2|]; [|destruct nw as [e3|];
      [|destruct u as [e4|]; [destruct (String.eqb (Errors.Error e4) "no change")|]]]];
      simpl; (split; [eexists; reflexivity|]);
      (split; [intros [x Hx]; discriminate|]);
      (split; [intros _; split; reflexivity|]);
      (split; [first [reflexivity | discriminate]|]);
      intros H; first [exfalso; apply H; reflexivity | eexists; split; reflexivity].
Qed.

Section WithEnvironment.

Variables EvSuffixForDBRequired EvSuffixForDBLogLevel EvSuffixForLogLevel : string.
Variables EvSuffixForDBConnectionLifetime EvSuffixForDBMaxIdleConnections : string.
Variable ToLower : string -> string.
Variable CanonicalMIMEHeaderKey : string -> string.

Abbreviation Header_Get := (Microapp.Header_Get CanonicalMIMEHeaderKey).
Abbreviation stamped := (Microapp.stamped CanonicalMIMEHeaderKey).
Abbreviation begin_line := (Microapp.begin_line CanonicalMIMEHeaderKey).
Abbreviation end_line := (Microapp.end_line CanonicalMIMEHeaderKey).
Abbreviation loggingMiddleware := (Microapp.loggingMiddleware CanonicalMIMEHeaderKey).
Abbreviation GetCorrelationIDFromRequest :=
  (Microapp.GetCorrelationIDFromRequest CanonicalMIMEHeaderKey).
Abbreviation initializeDB_attempt :=
  (Microapp.initializeDB_attempt EvSuffixForDBLogLevel EvSuffixForLogLevel
     EvSuffixForDBConnectionLifetime EvSuffixForDBMaxIdleConnections ToLower).
Abbreviation initializeDB :=
  (Microapp.initializeDB EvSuffixForDBRequired EvSuffixForDBLogLevel EvSuffixForLogLevel
     EvSuffixForDBConnectionLifetime EvSuffixForDBMaxIdleConnections ToLower).

(** ** The logging middleware, for every request *)

(** The request that the middleware hands to the handler. *)
Definition handed_on (r : Request) (u : Uuid.UUID) : Request :=
  if String.eqb (Header_Get (Header r) "X-Correlation-ID") "" then stamped r u else r.

Lemma loggingMiddleware_run app next r u startTime endTime :
  loggingMiddleware app next r u startTime endTime =
  (_ ← log (begin_line app (handed_on r u));
   served ← next (mkRecorder 0) (handed_on r u);
   _ ← log (end_line app (handed_on r u) served.1 (endTime - startTime));
   mret served).
Proof.
  unfold Microapp.loggingMiddleware, handed_on.
  destruct (String.eqb (Header_Get (Header r) "X-Correlation-ID") "");
    fold (stamped r u);
    unfold Microapp.begin_line, Microapp.end_line, Microapp.ingress_fields, Microapp.Logger,
      StatusInternalServerError,
      Event_Msg, Event_Dur, Event_Int, Event_add, Zerolog.Error, Info, newEvent,
      Context_Logger, Context_Str, Context_Timestamp, With;
    (destruct (next (mkRecorder 0) _) as [t [served | code |]];
     unfold mbind, Eff_bind, log, call; simpl; rewrite <- ?app_assoc; simpl;
     [|reflexivity|reflexivity]);
    destruct (status served.1 >=? 500); simpl; rewrite <- ?app_assoc; reflexivity.
Qed.



Lemma sent_event_fields (fields : list Field) status elapsed :
  sent (fields ++ [FInt "status" status; FDur "responseTime" elapsed]) =
  filter (fun f => negb (isTimestamp f)) fields
  ++ [FInt "status" status; FDur "responseTime" elapsed]
  ++ filter (fun f => isTimestamp f) fields.
Proof.
  unfold sent. rewrite !filter_app.
  change (filter (fun f => negb (isTimestamp f)) [FInt "status" status; FDur "responseTime" elapsed])
    with [FInt "status" status; FDur "responseTime" elapsed].
  change (filter (fun f => isTimestamp f) [FInt "status" status; FDur "responseTime" elapsed])
    with (@nil Field).
  rewrite app_nil_r, <- app_assoc. reflexivity.
Qed.

(** The run of the middleware, by how the handler ends. *)
Lemma loggingMiddleware_cases app next r u startTime endTime :
  (forall t served,
      next (mkRecorder 0) (handed_on r u) = (t, Done served) ->
      loggingMiddleware app next r u startTime endTime =
        (Log (begin_line app (handed_on r u)) :: t
         ++ [Log (end_line app (handed_on r u) served.1 (endTime - startTime))],
         Done served)) /\
  (forall t, next (mkRecorder 0) (handed_on r u) = (t, Panic) ->
      loggingMiddleware app next r u startTime endTime =
        (Log (begin_line app (handed_on r u)) :: t, Panic)) /\
  (forall t code, next (mkRecorder 0) (handed_on r u) = (t, Exit code) ->
      loggingMiddleware app next r u startTime endTime =
        (Log (begin_line app (handed_on r u)) :: t, Exit code)).
Proof.
  rewrite loggingMiddleware_run. repeat split; intros; 
    unfold mbind, Eff_bind, log, call;
    match goal with H : next _ _ = _ |- _ => rewrite H end; simpl;
    rewrite ?app_nil_r; reflexivity.
Qed.

Lemma begin_line_id app r :
  line_level (begin_line app r) = InfoLevel /\
  line_message (begin_line app r) = "Begin" /\
  lookupStr "correlationId" (line_fields (begin_line app r))
    = Some (GetCorrelationIDFromRequest r).
Proof.
  unfold Microapp.begin_line, Microapp.ingress_fields, Microapp.GetCorrelationIDFromRequest.
  simpl. rewrite ?Microapp.lookupStr_app. repeat split.
Qed.

Lemma end_line_id app r rec elapsed :
  line_message (end_line app r rec elapsed) = "End." /\
  (line_level (end_line app r rec elapsed) = ErrorLevel <-> 500 <= status rec) /\
  (line_level (end_line app r rec elapsed) = InfoLevel <-> status rec < 500) /\
  lookupStr "correlationId" (line_fields (end_line app r rec elapsed))
    = Some (GetCorrelationIDFromRequest r) /\
  sent (line_fields (end_line app r rec elapsed)) =
    filter (fun f => negb (isTimestamp f)) (line_fields (begin_line app r))
    ++ [FInt "status" (status rec); FDur "responseTime" elapsed]
    ++ filter (fun f => isTimestamp f) (line_fields (begin_line app r)).
Proof.
  split; [reflexivity|].
  split; [|split; [|split]].
  - unfold Microapp.end_line. simpl.
    destruct (Z.geb_spec (status rec) 500); split; intros; try lia; try discriminate;
      reflexivity.
  - unfold Microapp.end_line. simpl.
    destruct (Z.geb_spec (status rec) 500); split; intros; try lia; try discriminate;
      reflexivity.
  - unfold Microapp.end_line, Microapp.ingress_fields, Microapp.GetCorrelationIDFromRequest.
    simpl. rewrite ?Microapp.lookupStr_app. reflexivity.
  - unfold Microapp.end_line, Microapp.begin_line. simpl line_fields.
    apply sent_event_fields.
Qed.


(** With a correlation id on the request, the request is handed on as it
    came. *)
Lemma handed_on_supplied r u :
  Header_Get (Header r) "X-Correlation-ID" <> "" -> handed_on r u = r.
Proof. intros Hne%String.eqb_neq. unfold handed_on. rewrite Hne. reflexivity. Qed.

(** A correlation id that came with the request is never replaced: the
    middleware runs the handler on the request as it came, whatever the
    random source would return, and the begin line and the end line it
    writes show the id of the request. *)
Theorem middleware_keeps_a_supplied_correlation_id app next r u startTime endTime :
  Header_Get (Header r) "X-Correlation-ID" <> "" ->
  exists begin,
    lookupStr "correlationId" (line_fields begin) = Some (GetCorrelationIDFromRequest r) /\
    (forall t served,
        next (mkRecorder 0) r = (t, Done served) ->
        exists finish,
          loggingMiddleware app next r u startTime endTime
            = (Log begin :: t ++ [Log finish], Done served) /\
          lookupStr "correlationId" (line_fields finish)
            = Some (GetCorrelationIDFromRequest r)) /\
    (forall t, next (mkRecorder 0) r = (t, Panic) ->
        loggingMiddleware app next r u startTime endTime = (Log begin :: t, Panic)) /\
    (forall t code, next (mkRecorder 0) r = (t, Exit code) ->
        loggingMiddleware app next r u startTime endTime = (Log begin :: t, Exit code)).
Proof.
  intros Hne.
  destruct (loggingMiddleware_cases app next r u startTime endTime) as (Hdone & Hpanic & Hexit).
  rewrite (handed_on_supplied r u Hne) in Hdone, Hpanic, Hexit.
  destruct (begin_line_id app r) as (_ & _ & Hid).
  exists (begin_line app r). split; [exact Hid|]. split; [|split; assumption].
  intros t served Hnext.
  destruct (end_line_id app r served.1 (endTime - startTime)) as (_ & _ & _ & Hfid & _).
  eexists. split; [apply Hdone; exact Hnext | exact Hfid].
Qed.

(** A correlation id made of white space only is kept by the middleware:
    the handler runs on the request as it came and the lines of the
    middleware show that id. [NewExecutionContext] does not accept it: the
    root context that the handler builds from the id of the request gets a
    generated id, which differs from the one on the middleware's lines. *)
Theorem blank_correlation_id_splits_the_request app r u token action lg u' w :
  GetCorrelationIDFromRequest r <> "" ->
  String.length (Strings.TrimSpace (GetCorrelationIDFromRequest r)) = 0%nat ->
  length u' = 16%nat ->
  exists begin,
    lookupStr "correlationId" (line_fields begin) = Some (GetCorrelationIDFromRequest r) /\
    (forall next startTime endTime t served,
        next (mkRecorder 0) r = (t, Done served) ->
        exists finish,
          loggingMiddleware app next r u startTime endTime
            = (Log begin :: t ++ [Log finish], Done served) /\
          lookupStr "correlationId" (line_fields finish)
            = Some (GetCorrelationIDFromRequest r)) /\
    exists c,
      MicroappContext.created
        (MicroappContext.NewExecutionContext token (GetCorrelationIDFromRequest r)
           action lg u') w = Some c /\
      MicroappContext.CorrelationID c = Uuid.String u' /\
      MicroappContext.CorrelationID c <> GetCorrelationIDFromRequest r.
Proof.
  intros Hne Hblank Hu.
  destruct (begin_line_id app r) as (_ & _ & Hid).
  exists (begin_line app r). split; [exact Hid|]. split.
  - intros next startTime endTime t served Hnext.
    destruct (loggingMiddleware_cases app next r u startTime endTime) as (Hdone & _).
    rewrite (handed_on_supplied r u Hne) in Hdone.
    destruct (end_line_id app r served.1 (endTime - startTime)) as (_ & _ & _ & Hfid & _).
    eexists. split; [apply Hdone; exact Hnext | exact Hfid].
  - destruct (MicroappContext.NewExecutionContext_created token
                (GetCorrelationIDFromRequest r) action lg u' w)
      as (c & Hc & _ & _ & _ & _ & Hcid & _).
    exists c. split; [exact Hc|]. rewrite Hblank in Hcid. simpl in Hcid.
    split; [exact Hcid|]. rewrite Hcid. intros E.
    rewrite <- E, (UuidFacts.TrimSpace_String u' Hu), (UuidFacts.String_length u' Hu) in Hblank.
    discriminate.
Qed.

(** ** The database bootstrap *)

(** When the database is not required, [initializeDB] makes no call, writes
    no line (not the "Database connected!" line either), leaves the
    application as it is and returns nil, whatever the driver would answer. *)
Theorem initializeDB_does_nothing_unless_required app answers :
  GetBool (AppConfig app) EvSuffixForDBRequired = false ->
  initializeDB app answers = ([], Done (app, None)).
Proof. intros H. unfold Microapp.initializeDB. rewrite H. reflexivity. Qed.

(** The log level that an attempt gives [gorm] when the configured
    database log level is none of info, warn, error and silent. *)
Definition fallback_level (app : App) : GormLogLevel :=
  if String.eqb (ToLower (GetString (AppConfig app) EvSuffixForLogLevel)) "trace"
  then GormInfo else GormError.

Definition known_level (level : string) : bool :=
  String.eqb level "info" || String.eqb level "warn" || String.eqb level "error"
  || String.eqb level "silent".

(** With a pool handle, an attempt makes its calls in this order: open the
    pool, set the connection lifetime and the idle connections on the
    handle, open [gorm] on the same handle. The [gorm] configuration always
    prepares statements and always has a logger, which falls back to info
    or error, by the application's log level, when the database log level
    is not a known one; table names are singular only when asked for. The
    warning line is written exactly when the attempt returns a plain error.
    For a lifetime of up to 153722867 minutes the duration is exact. *)
Theorem attempt_calls_in_order app answer db h :
  sqlOpen answer = (Some h, None) ->
  exists conf,
    filter (fun c => negb (isLog c)) (trace (initializeDB_attempt app answer db)) =
      [SqlOpen "mysql" (GetConnectionString app);
       SetConnMaxLifetime (Some h)
         (Duration_mul (GetInt (AppConfig app) EvSuffixForDBConnectionLifetime) Minute);
       SetMaxIdleConns (Some h) (GetInt (AppConfig app) EvSuffixForDBMaxIdleConnections);
       GormOpen (Some h) conf] /\
    PrepareStmt conf = true /\
    is_Some (GormLogger conf) /\
    (known_level (ToLower (GetString (AppConfig app) EvSuffixForDBLogLevel)) = false ->
       GormLogger conf = Some (fallback_level app)) /\
    NamingStrategySingularTable conf =
      (if GetBool (AppConfig app) "DB_NAMING_STRATEGY_IS_SINGULAR" then Some true else None) /\
    (existsb isLog (trace (initializeDB_attempt app answer db))
       = refused (gormOpen answer).2) /\
    (- 153722867 <= GetInt (AppConfig app) EvSuffixForDBConnectionLifetime <= 153722867 ->
       Duration_mul (GetInt (AppConfig app) EvSuffixForDBConnectionLifetime) Minute =
       GetInt (AppConfig app) EvSuffixForDBConnectionLifetime * 60000000000).
Proof.
  intros Hsql. destruct answer as [so [gdb gerr]]. simpl in Hsql. subst so.
  unfold Microapp.initializeDB_attempt, known_level, fallback_level, refused. simpl.
  set (level := ToLower (GetString (AppConfig app) EvSuffixForDBLogLevel)).
  eexists. split; [|split; [|split; [|split; [|split; [|split]]]]].
  - destruct gerr as [e|]; simpl;
      [destruct (Strings.Contains (Errors.Error e) "connection refused")|]; reflexivity.
  - destruct (String.eqb level "info"), (String.eqb level "warn"),
      (String.eqb level "error"), (String.eqb level "silent"),
      (String.eqb (ToLower (GetString (AppConfig app) EvSuffixForLogLevel)) "trace"),
      (GetBool (AppConfig app) "DB_NAMING_STRATEGY_IS_SINGULAR"); reflexivity.
  - destruct (String.eqb level "info"), (String.eqb level "warn"),
      (String.eqb level "error"), (String.eqb level "silent"),
      (String.eqb (ToLower (GetString (AppConfig app) EvSuffixForLogLevel)) "trace"),
      (GetBool (AppConfig app) "DB_NAMING_STRATEGY_IS_SINGULAR"); eexists; reflexivity.
  - destruct (String.eqb level "info"), (String.eqb level "warn"),
      (String.eqb level "error"), (String.eqb level "silent"); try discriminate.
    intros _.
    destruct (String.eqb (ToLower (GetString (AppConfig app) EvSuffixForLogLevel)) "trace"),
      (GetBool (AppConfig app) "DB_NAMING_STRATEGY_IS_SINGULAR"); reflexivity.
  - destruct (String.eqb level "info"), (String.eqb level "warn"),
      (String.eqb level "error"), (String.eqb level "silent"),
      (String.eqb (ToLower (GetString (AppConfig app) EvSuffixForLogLevel)) "trace"),
      (GetBool (AppConfig app) "DB_NAMING_STRATEGY_IS_SINGULAR"); reflexivity.
  - destruct gerr as [e|]; simpl;
      [destruct (Strings.Contains (Errors.Error e) "connection refused")|]; reflexivity.
  - intros Hrange. unfold Duration_mul, wrap64, Minute, Second.
    rewrite Z.mod_small by lia. lia.
Qed.

End WithEnvironment.

(** ** Concrete runs *)

(** A request as the server builds it: the header is keyed by the
    canonical name. *)
Definition request_with_id (id : string) : Request :=
  mkRequest {["X-Correlation-Id" := [id]]} "GET" "/api/tenants/7".

Lemma middleware_keeps_a_supplied_correlation_id_witness :
  exists begin finish,
    Microapp.loggingMiddleware Textproto.CanonicalMIMEHeaderKey plain_app demo_handler
      (request_with_id "abc") Uuid.Nil 5 9
    = ([Log begin; Log finish], Done (mkRecorder 200, request_with_id "abc")) /\
    lookupStr "correlationId" (line_fields begin) = Some "abc" /\
    lookupStr "correlationId" (line_fields finish) = Some "abc".
Proof.
  assert (Hne : Microapp.Header_Get Textproto.CanonicalMIMEHeaderKey
                  (Header (request_with_id "abc")) "X-Correlation-ID" <> "")
    by (vm_compute; discriminate).
  destruct (middleware_keeps_a_supplied_correlation_id Textproto.CanonicalMIMEHeaderKey
              plain_app demo_handler (request_with_id "abc") Uuid.Nil 5 9 Hne)
    as (begin & Hbegin & Hdone & _).
  destruct (Hdone [] (mkRecorder 200, request_with_id "abc") eq_refl)
    as (finish & Hrun & Hfinish).
  exists begin, finish. split; [exact Hrun|]. split.
  - rewrite Hbegin. vm_compute. reflexivity.
  - rewrite Hfinish. vm_compute. reflexivity.
Defined.

Lemma blank_correlation_id_splits_the_request_witness :
  exists begin c,
    lookupStr "correlationId" (line_fields begin) = Some " " /\
    (exists finish,
        Microapp.loggingMiddleware Textproto.CanonicalMIMEHeaderKey plain_app demo_handler
          (request_with_id " ") Uuid.Nil 5 9
        = ([Log begin; Log finish], Done (mkRecorder 200, request_with_id " "))) /\
    MicroappContext.created
      (MicroappContext.NewExecutionContext None
         (Microapp.GetCorrelationIDFromRequest Textproto.CanonicalMIMEHeaderKey
            (request_with_id " "))
         "tenant.get" [] (replicate 16 x01%byte)) (MicroappContext.mkWorld [] []) = Some c /\
    MicroappContext.CorrelationID c = "01010101-0101-0101-0101-010101010101".
Proof.
  assert (Hne : Microapp.GetCorrelationIDFromRequest Textproto.CanonicalMIMEHeaderKey
                  (request_with_id " ") <> "")
    by (vm_compute; discriminate).
  assert (Hblank : String.length
                     (Strings.TrimSpace
                        (Microapp.GetCorrelationIDFromRequest Textproto.CanonicalMIMEHeaderKey
                           (request_with_id " "))) = 0%nat)
    by (vm_compute; reflexivity).
  destruct (blank_correlation_id_splits_the_request Textproto.CanonicalMIMEHeaderKey plain_app
              (request_with_id " ") Uuid.Nil None "tenant.get" [] (replicate 16 x01%byte)
              (MicroappContext.mkWorld [] []) Hne Hblank eq_refl)
    as (begin & Hbegin & Hrun & c & Hc & Hcid & _).
  destruct (Hrun demo_handler 5 9 [] (mkRecorder 200, request_with_id " ") eq_refl)
    as (finish & Hmw & _).
  exists begin, c. split; [rewrite Hbegin; vm_compute; reflexivity|].
  split; [exists finish; exact Hmw|]. split; [exact Hc|].
  rewrite Hcid. vm_compute. reflexivity.
Defined.

Lemma initializeDB_does_nothing_unless_required_witness :
  demo_initializeDB tls_app demo_answers = ([], Done (tls_app, None)).
Proof.
  apply (initializeDB_does_nothing_unless_required
           "DB_REQUIRED" "DB_LOG_LEVEL" "LOG_LEVEL" "DB_CONNECTION_LIFETIME"
           "DB_MAX_IDLE_CONNECTIONS" (fun s => s) tls_app demo_answers).
  reflexivity.
Defined.

Lemma attempt_calls_in_order_witness :
  exists conf,
    filter (fun c => negb (isLog c)) (trace (demo_attempt plain_app denying None)) =
      [SqlOpen "mysql" (GetConnectionString plain_app);
       SetConnMaxLifetime (Some 1%nat) 300000000000;
       SetMaxIdleConns (Some 1%nat) 5;
       GormOpen (Some 1%nat) conf] /\
    PrepareStmt conf = true.
Proof.
  destruct (attempt_calls_in_order "DB_LOG_LEVEL" "LOG_LEVEL" "DB_CONNECTION_LIFETIME"
              "DB_MAX_IDLE_CONNECTIONS" (fun s => s) plain_app denying None 1%nat eq_refl)
    as (conf & Hcalls & Hprep & _).
  exists conf. split; [exact Hcalls | exact Hprep].
Defined.

End AppLifecycle.

(* ===================================================================== *)
(** * Package [controllers]: looking a setting up by name                *)
(* ===================================================================== *)

Module Controllers.

Import Runtime.

Section GetByName.

(** What the values stored under the key "value" are made of. *)
Variable V : Type.

(** A value of the map [settings], as the loop of [getByName] reads it: a
    [map[string]interface{}], given by what it holds under "value" ([None]
    when the key is missing or holds nil), or a value of any other type. *)
Inductive Setting : Type :=
| SettingMap (value : option V)
| SettingOther.

(** The loop of [getByName] over [settings], given in the order the loop
    visits them: the type assertion on a value that is not a map panics;
    the loop stops at the entry whose key is [settingName]. The result is
    [settingsName]. *)
Fixpoint findSetting (settingName : string) (settings : list (string * Setting))
    : Outcome (option V) :=
  match settings with
  | [] => Done None
  | (key, settingsValue) :: rest =>
      match settingsValue with
      | SettingOther => Panic
      | SettingMap requiredValue =>
          if String.eqb settingName key then Done requiredValue
          else findSetting settingName rest
      end
  end.

(** The one-entry map that [getByName] answers with. *)
Definition settingsParameter (settingName : string) (settings : list (string * Setting))
    : Outcome (string * option V) :=
  match findSetting settingName settings with
  | Done settingsName => Done (settingName, settingsName)
  | Exit code => Exit code
  | Panic => Panic
  end.

Definition isMap (s : Setting) : bool :=
  match s with SettingMap _ => true | SettingOther => false end.

Lemma findSetting_absent name settings :
  forallb (fun kv => isMap kv.2) settings = true ->
  name ∉ settings.*1 -> findSetting name settings = Done None.
Proof.
  induction settings as [|[k [v|]] settings IH]; intros Hm Hk; simpl in *;
    [reflexivity | | discriminate].
  destruct (String.eqb_spec name k) as [->|Hne].
  - exfalso. apply Hk. left.
  - apply IH; [exact Hm|]. intros H. apply Hk. right. exact H.
Qed.

Lemma findSetting_present name settings v :
  forallb (fun kv => isMap kv.2) settings = true ->
  NoDup settings.*1 ->
  (name, SettingMap v) ∈ settings -> findSetting name settings = Done v.
Proof.
  induction settings as [|[k [x|]] settings IH]; intros Hm Hnd Hin; simpl in *;
    [inversion Hin | | discriminate].
  apply NoDup_cons in Hnd as [Hk Hnd].
  apply elem_of_cons in Hin as [Hin | Hin].
  - injection Hin as -> ->. rewrite String.eqb_refl. reflexivity.
  - destruct (String.eqb_spec name k) as [->|Hne].
    + exfalso. apply Hk. apply list_elem_of_fmap. exists (k, SettingMap v). split; [reflexivity | exact Hin].
    + apply IH; assumption.
Qed.

Lemma all_maps_elem (settings : list (string * Setting)) kv :
  forallb (fun kv => isMap kv.2) settings = true -> kv ∈ settings -> isMap kv.2 = true.
Proof.
  intros Hm Hin. rewrite forallb_forall in Hm. apply Hm, list_elem_of_In, Hin.
Qed.

Lemma all_maps_perm (l settings : list (string * Setting)) :
  l ≡ₚ settings ->
  forallb (fun kv => isMap kv.2) settings = true ->
  forallb (fun kv => isMap kv.2) l = true.
Proof.
  intros Hp Hm. apply forallb_forall. intros x Hx%list_elem_of_In.
  apply (all_maps_elem settings x Hm). rewrite <- Hp. exact Hx.
Qed.

(** When every setting is a map, the answer does not depend on the order
    in which the loop visits the settings: it is what the setting of that
    name holds under "value", and nil when there is no setting of that
    name, which is answered like a setting that holds nil. *)
Theorem getByName_answer_when_all_settings_are_maps name settings :
  forallb (fun kv => isMap kv.2) settings = true ->
  NoDup settings.*1 ->
  (forall v, (name, SettingMap v) ∈ settings ->
     settingsParameter name settings = Done (name, v)) /\
  (name ∉ settings.*1 -> settingsParameter name settings = Done (name, None)) /\
  (forall visited, visited ≡ₚ settings ->
     settingsParameter name visited = settingsParameter name settings).
Proof.
  intros Hm Hnd. unfold settingsParameter.
  assert (H1 : forall l v, l ≡ₚ settings -> (name, SettingMap v) ∈ settings ->
                 findSetting name l = Done v).
  { intros l v Hp Hin. apply findSetting_present.
    - apply (all_maps_perm l settings Hp Hm).
    - rewrite Hp. exact Hnd.
    - rewrite Hp. exact Hin. }
  assert (H2 : forall l, l ≡ₚ settings -> name ∉ settings.*1 -> findSetting name l = Done None).
  { intros l Hp Hk. apply findSetting_absent.
    - apply (all_maps_perm l settings Hp Hm).
    - rewrite Hp. exact Hk. }
  split; [|split].
  - intros v Hin. rewrite (H1 settings v); [reflexivity | reflexivity | exact Hin].
  - intros Hk. rewrite (H2 settings); [reflexivity | reflexivity | exact Hk].
  - intros visited Hp.
    destruct (decide (name ∈ settings.*1)) as [Hin | Hout].
    + apply list_elem_of_fmap in Hin as ([k s] & Hk & Hin). simpl in Hk. subst k.
      assert (Hs : isMap s = true) by exact (all_maps_elem settings (name, s) Hm Hin).
      destruct s as [v|]; [|discriminate].
      rewrite (H1 visited v Hp Hin), (H1 settings v); [reflexivity | reflexivity | exact Hin].
    + rewrite (H2 visited Hp Hout), (H2 settings); [reflexivity | reflexivity | exact Hout].
Qed.


End GetByName.

Definition demo_settings : list (string * Setting string) :=
  [("theme", SettingMap string (Some "dark")); ("quota", SettingMap string (Some "10"))].

Lemma getByName_answer_when_all_settings_are_maps_witness :
  settingsParameter string "quota" demo_settings = Done ("quota", Some "10") /\
  settingsParameter string "missing" demo_settings = Done ("missing", None).
Proof.
  assert (Hnd : NoDup demo_settings.*1)
    by (apply (bool_decide_unpack _); vm_compute; reflexivity).
  destruct (getByName_answer_when_all_settings_are_maps string "quota" demo_settings
              eq_refl Hnd) as (Hfound & _ & _).
  destruct (getByName_answer_when_all_settings_are_maps string "missing" demo_settings
              eq_refl Hnd) as (_ & Hmissing & _).
  split.
  - apply Hfound. apply elem_of_cons. right. apply elem_of_cons. left. reflexivity.
  - apply Hmissing. apply (bool_decide_unpack _). vm_compute. reflexivity.
Defined.

End Controllers.

(* ===================================================================== *)
(** * More checks on concrete inputs                                     *)
(* ===================================================================== *)

Module LifecycleChecks.

Import Zerolog Errors Runtime.

Example canonical_header_keys :
  Textproto.CanonicalMIMEHeaderKey "X-Correlation-ID" = "X-Correlation-Id" /\
  Textproto.CanonicalMIMEHeaderKey "x-client" = "X-Client" /\
  Textproto.CanonicalMIMEHeaderKey "content-TYPE" = "Content-Type" /\
  Textproto.CanonicalMIMEHeaderKey "not a token" = "not a token".
Proof. repeat split; vm_compute; reflexivity. Qed.

Example Atoi_port : Strconv.Atoi "8080" = Some 8080.
Proof. reflexivity. Qed.

Example Atoi_signed : Strconv.Atoi "-1" = Some (-1) /\ Strconv.Atoi "+80" = Some 80.
Proof. split; reflexivity. Qed.

Example Atoi_rejects :
  Strconv.Atoi "" = None /\ Strconv.Atoi "+" = None /\ Strconv.Atoi "80a" = None /\
  Strconv.Atoi "8_0" = None /\ Strconv.Atoi " 80" = None /\
  Strconv.Atoi "9223372036854775808" = None.
Proof. repeat split; reflexivity. Qed.

Example Atoi_extremes :
  Strconv.Atoi "9223372036854775807" = Some 9223372036854775807 /\
  Strconv.Atoi "-9223372036854775808" = Some (-9223372036854775808).
Proof. split; reflexivity. Qed.

Definition port_config (port : string) : Microapp.Config :=
  Microapp.mkConfig (fun key => if String.eqb key "API_PORT" then port else "")
    (fun _ => false) (fun _ => 30).

Definition port_app (port : string) : Microapp.App :=
  Microapp.mkApp "tenant" (port_config port) None None [].

Example Initialize_with_a_word_for_port :
  AppLifecycle.Initialize (fun _ => true) (port_app "http") =
    ([Log (mkLine ErrorLevel [] "API port needs to be a number. http is not a number.");
      Log (mkLine DebugLevel [FStr "appname" "tenant"] "Api server will start on port: 80")],
     Done (Microapp.mkApp "tenant" (port_config "http") None
             (Some (Microapp.mkServer "0.0.0.0:80" 30000000000 30000000000 30000000000))
             [])).
Proof. reflexivity. Qed.

Example Initialize_with_a_negative_port :
  AppLifecycle.resolved_port (fun _ => true) (port_app "-1") = "-1".
Proof. reflexivity. Qed.

Example MigrateDB_up_to_date :
  AppLifecycle.MigrateDB (port_app "80")
    (AppLifecycle.mkMigration None None None None (Some (errorString "no change"))) =
    ([Log (mkLine DebugLevel [] "DB Migration Begin...");
      SqlOpen "mysql" ":@tcp(:)/?multiStatements=true&charset=utf8&parseTime=True&loc=Local";
      Log (mkLine InfoLevel [] "DB already in latest state.");
      Log (mkLine InfoLevel [] "DB Migration End!")],
     Done tt).
Proof. reflexivity. Qed.

End LifecycleChecks.
